(** * SourceCred: project configuration, plugin orchestration and cred
    normalisation

    A shallow embedding of
    - [src/core/project.js]           (module [Project]),
    - [src/backend/pluginLoaders.js]  (module [PluginLoaders]),
    - the distribution normaliser exercised by
      [src/core/algorithm/distributionToCred.test.js]
      (module [DistributionToCred]),
    together with the small pieces of [util/compat], [core/graph] and
    [core/references] these files rely on. *)

From Stdlib Require Import String List Bool Arith ZArith QArith Lia.
From Stdlib Require Floats.
Import ListNotations.

(** ** JavaScript values

    [T | null] and an object property that may be missing are kept apart:
    the legacy project shapes differ exactly in which properties exist. *)

Inductive nullable (A : Type) : Type :=
| null : nullable A
| obj : A -> nullable A.
Arguments null {A}.
Arguments obj {A} _.

Inductive optional (A : Type) : Type :=
| undefined : optional A
| present : A -> optional A.
Arguments undefined {A}.
Arguments present {A} _.

(** What [throw] carries.  [JsError m] is [new Error(m)]; [CompatError] is
    the failure of the compat layer on a document it cannot read. *)
Inductive Exception : Type :=
| JsError (message : string)
| CompatError (type version : string).

(** A synchronous call either throws or returns. *)
Definition Result (A : Type) : Type := (Exception + A)%type.
Definition throw {A : Type} (e : Exception) : Result A := inl e.
Definition returns {A : Type} (a : A) : Result A := inr a.
Definition fails {A : Type} (r : Result A) : Prop := exists e, r = throw e.

(** Truthiness of the values the code tests with [if (x)] and [!x]. *)
Definition truthy_string (s : string) : bool :=
  match s with EmptyString => false | String _ _ => true end.

Definition truthy_length {A : Type} (xs : list A) : bool :=
  match xs with [] => false | _ :: _ => true end.

Definition truthy_nullable {A : Type} (x : nullable A) : bool :=
  match x with null => false | obj _ => true end.

(** ** External collaborators

    Types declared in modules of the repository that the orchestration
    layer only passes around.  [World] is everything outside the
    orchestrator that a call can read or change: the network, the cache
    contents, the heap on which graph objects live.  A [WeightedGraphT]
    is a reference to a graph object on that heap, so equality of two
    [WeightedGraphT] is identity of instances.  [WeightedGraph_merge] is
    [merge] of [core/weightedGraph], the one operation of that module the
    orchestrator calls: it runs against the world and returns the merged
    graph or throws. *)
Class Externals : Type := {
  RepoId : Type;
  Identity : Type;
  GithubToken : Type;
  CacheProvider : Type;
  TaskReporter : Type;
  PluginDeclaration : Type;
  WeightedGraphT : Type;
  InitiativeRepository : Type;
  World : Type;
  WeightedGraph_merge :
    list WeightedGraphT -> World -> World * Result WeightedGraphT
}.

(** ** [util/compat]: versioned documents *)
Module Compat.

Record CompatInfo : Type := { type : string; version : string }.

(** [Compatible<T>]: the payload next to its type and version tag. *)
Definition Compatible (T : Type) : Type := (CompatInfo * T)%type.

(** A table of upgrade functions keyed by version tag, in the order the
    object literal lists them. *)
Definition Handlers (T : Type) : Type := list (string * (T -> T)).

Fixpoint lookup {T : Type} (version : string) (handlers : Handlers T)
  : option (T -> T) :=
  match handlers with
  | [] => None
  | (v, h) :: rest =>
      if String.eqb v version then Some h else lookup version rest
  end.

(** Modelled from the spec: [toCompat] of [util/compat], which is not
    among the sources.  "tagged with a type discriminator and version
    string alongside the payload". *)
Definition toCompat {T : Type} (compatInfo : CompatInfo) (o : T)
  : Compatible T :=
  (compatInfo, o).

(** Modelled from the spec: [fromCompat] of [util/compat], which is not
    among the sources.  A document of the current version is its own
    payload; a legacy tag is read through its migration function; "an
    unrecognized version tag fails with a CompatError". *)
Definition fromCompat {T : Type} (expected : CompatInfo)
  (j : Compatible T) (handlers : Handlers T) : Result T :=
  let '(info, payload) := j in
  if negb (String.eqb (type info) (type expected)) then
    throw (CompatError (type info) (version info))
  else if String.eqb (version info) (version expected) then
    returns payload
  else
    match lookup (version info) handlers with
    | Some upgrade => returns (upgrade payload)
    | None => throw (CompatError (type info) (version info))
    end.

End Compat.

(** ** [src/core/project.js] *)
Module Project.
Import Compat.

Definition ProjectId : Type := string.

(** [plugins/initiatives/projectOptions]: used by the orchestrator as
    [project.initiatives.remoteUrl]. *)
Record Initiatives : Type := { remoteUrl : string }.

(** The forum-server object as it occurs in any persisted version:
    [apiUsername] is required in 0.3.0, optional in 0.3.1 and gone
    afterwards. *)
Record DiscourseServer : Type := {
  serverUrl : string;
  apiUsername : optional string
}.

Section WithExternals.
Context {E : Externals}.

(** A project object.  The four Flow types [ProjectV030] ...
    [ProjectV050] are shapes of this one object; they differ in whether
    [initiatives] exists and in the forum-server object. *)
Record Project : Type := {
  id : ProjectId;
  initiatives : optional (nullable Initiatives);
  repoIds : list RepoId;
  discourseServer : nullable DiscourseServer;
  identities : list Identity
}.

Definition serverV050 (s : nullable DiscourseServer) : bool :=
  match s with
  | null => true
  | obj d =>
      match apiUsername d with undefined => true | present _ => false end
  end.

Definition serverV030 (s : nullable DiscourseServer) : bool :=
  match s with
  | null => true
  | obj d =>
      match apiUsername d with undefined => false | present _ => true end
  end.

Definition hasInitiatives (p : Project) : bool :=
  match initiatives p with undefined => false | present _ => true end.

Definition ProjectV050 (p : Project) : bool :=
  hasInitiatives p && serverV050 (discourseServer p).

Definition ProjectV040 (p : Project) : bool :=
  negb (hasInitiatives p) && serverV050 (discourseServer p).

Definition ProjectV031 (p : Project) : bool :=
  negb (hasInitiatives p).

Definition ProjectV030 (p : Project) : bool :=
  negb (hasInitiatives p) && serverV030 (discourseServer p).

Definition COMPAT_INFO : CompatInfo :=
  {| type := "sourcecred/project"; version := "0.5.0" |}.

(** [$Shape<Project>]: every property may be missing. *)
Record ProjectShape : Type := {
  shape_id : optional ProjectId;
  shape_initiatives : optional (nullable Initiatives);
  shape_repoIds : optional (list RepoId);
  shape_discourseServer : optional (nullable DiscourseServer);
  shape_identities : optional (list Identity)
}.

(** [{...defaults, ...p}], one property at a time. *)
Definition spread {A : Type} (default : A) (given : optional A) : A :=
  match given with undefined => default | present a => a end.

(** [!p.id] holds when the property is missing and when it is [""]. *)
Definition createProject (p : ProjectShape) : Result Project :=
  match shape_id p with
  | undefined => throw (JsError "Project.id must be set")
  | present i =>
      if negb (truthy_string i) then
        throw (JsError "Project.id must be set")
      else
        returns
          {| repoIds := spread [] (shape_repoIds p);
             identities := spread [] (shape_identities p);
             discourseServer := spread null (shape_discourseServer p);
             initiatives := present (spread null (shape_initiatives p));
             id := i |}
  end.

Definition ProjectJSON : Type := Compatible Project.

Definition projectToJSON (p : Project) : ProjectJSON :=
  toCompat COMPAT_INFO p.

(** [{...p, initiatives: null}] *)
Definition upgradeFrom040 (p : Project) : Project :=
  {| id := id p;
     repoIds := repoIds p;
     discourseServer := discourseServer p;
     identities := identities p;
     initiatives := present null |}.

(** [{...p, discourseServer: ...}], handed to [upgradeFrom040]. *)
Definition upgradeFrom030 (p : Project) : Project :=
  upgradeFrom040
    {| id := id p;
       repoIds := repoIds p;
       identities := identities p;
       initiatives := initiatives p;
       discourseServer :=
         match discourseServer p with
         | obj d => obj {| serverUrl := serverUrl d;
                           apiUsername := undefined |}
         | null => null
         end |}.

Definition upgrades : Handlers Project :=
  [ ("0.3.0", upgradeFrom030);
    ("0.3.1", upgradeFrom030);
    ("0.4.0", upgradeFrom040) ]%string.

Definition projectFromJSON (j : Compatible Project) : Result Project :=
  fromCompat COMPAT_INFO j upgrades.

(** A valid persisted payload of a legacy version: the object has the
    Flow type declared for that version tag. *)
Definition legacyShape (tag : string) (p : Project) : bool :=
  if String.eqb tag "0.3.0" then ProjectV030 p
  else if String.eqb tag "0.3.1" then ProjectV031 p
  else if String.eqb tag "0.4.0" then ProjectV040 p
  else false.

(** The persisted document carrying payload [p] under version [tag]. *)
Definition document (tag : string) (p : Project) : Compatible Project :=
  ({| type := "sourcecred/project"; version := tag |}, p).

End WithExternals.
End Project.

(** ** Asynchronous functions

    The body of an [async] function, run to completion: the world it
    leaves behind and either the exception that rejected its promise or
    the value that fulfilled it. *)
Module Async.
Section WithExternals.
Context {E : Externals}.

Definition Async (A : Type) : Type := World -> World * Result A.

(** A promise that has been created: the call that made it has started
    its work, and the promise settles to this result. *)
Definition Promise (A : Type) : Type := Result A.

(** A loader operation returning [Promise<A>]: calling it starts the work
    (the change of world) and hands back the promise. *)
Definition Launch (A : Type) : Type := World -> World * Promise A.

Definition ret {A : Type} (a : A) : Async A := fun w => (w, returns a).

Definition bind {A B : Type} (c : Async A) (k : A -> Async B) : Async B :=
  fun w =>
    match c w with
    | (w', inl e) => (w', inl e)
    | (w', inr a) => k a w'
    end.

Definition throwNew {A : Type} (message : string) : Async A :=
  fun w => (w, throw (JsError message)).

Definition call {A : Type} (l : Launch A) : Async (Promise A) :=
  fun w => let '(w', p) := l w in (w', returns p).

Definition await {A : Type} (p : Promise A) : Async A := fun w => (w, p).

(** A synchronous call that may change the world and may throw. *)
Definition sync {A : Type} (f : World -> World * Result A) : Async A := f.

(** [Promise.all]: fulfilled with all the values, or rejected with the
    exception of a rejected member (here: the first one in the array). *)
Fixpoint Promise_all {A : Type} (tasks : list (Promise A))
  : Promise (list A) :=
  match tasks with
  | [] => returns []
  | inl e :: _ => throw e
  | inr a :: rest =>
      match Promise_all rest with
      | inl e => inl e
      | inr values => returns (a :: values)
      end
  end.

(** [array.push(x)] *)
Definition push {A : Type} (array : list A) (x : A) : list A :=
  array ++ [x].

End WithExternals.
End Async.

Declare Scope async_scope.
Delimit Scope async_scope with async.
Notation "x <- c ;; k" := (Async.bind c (fun x => k))
  (at level 61, c at next level, right associativity) : async_scope.

(** ** [core/graph]: node addresses *)
Module NodeAddress.

(** Modelled from the spec: [NodeAddress] of [core/graph], which is not
    among the sources.  An address is its sequence of parts; "address
    prefixes" are prefixes of that sequence, and the empty address is a
    prefix of every address. *)
Definition NodeAddressT : Type := list string.

Definition fromParts (parts : list string) : NodeAddressT := parts.

Definition empty : NodeAddressT := [].

Fixpoint hasPrefix (address prefix : NodeAddressT) : bool :=
  match prefix, address with
  | [], _ => true
  | _ :: _, [] => false
  | p :: prefix', a :: address' =>
      String.eqb p a && hasPrefix address' prefix'
  end.

End NodeAddress.

(** ** [core/references]: reference detectors *)
Module References.
Import NodeAddress.

Definition URL : Type := string.

(** Modelled from the spec: [ReferenceDetector] and
    [CascadingReferenceDetector] of [core/references], which are not among
    the sources.  A detector is "a capability mapping a free-text token to
    a graph node address, or no match"; the cascading variant "holds an
    ordered list of child detectors and returns the first non-empty match,
    trying children in registration order; if none match, it reports no
    match". *)
#[warnings="-register-all"] Inductive ReferenceDetector : Type :=
| Detector (detect : URL -> option NodeAddressT)
| CascadingReferenceDetector (refs : list ReferenceDetector).

Fixpoint addressFromUrl (d : ReferenceDetector) (url : URL)
  : option NodeAddressT :=
  match d with
  | Detector detect => detect url
  | CascadingReferenceDetector refs =>
      (fix cascade (rs : list ReferenceDetector) : option NodeAddressT :=
         match rs with
         | [] => None
         | r :: rs' =>
             match addressFromUrl r url with
             | Some addr => Some addr
             | None => cascade rs'
             end
         end) refs
  end.

End References.

(** ** Loader interfaces of the four plugins

    Each plugin's [loader] module exports an object with these methods;
    the orchestrator receives them bundled as [PluginLoaders].  Only the
    initiatives loader's interface is among the sources; the others are
    read off the calls the orchestrator makes. *)
Module GithubLoader.
Section WithExternals.
Context {E : Externals}.
Import Async References.

Record Loader : Type := {
  declaration : unit -> PluginDeclaration;
  updateMirror :
    list RepoId -> GithubToken -> CacheProvider -> TaskReporter ->
    Launch unit;
  referenceDetector :
    list RepoId -> GithubToken -> CacheProvider -> Launch ReferenceDetector;
  createGraph :
    list RepoId -> GithubToken -> CacheProvider -> Launch WeightedGraphT
}.

End WithExternals.
End GithubLoader.

Module DiscourseLoader.
Section WithExternals.
Context {E : Externals}.
Import Async References.

Record Loader : Type := {
  declaration : unit -> PluginDeclaration;
  updateMirror :
    Project.DiscourseServer -> CacheProvider -> TaskReporter -> Launch unit;
  referenceDetector :
    Project.DiscourseServer -> CacheProvider -> Launch ReferenceDetector;
  createGraph :
    Project.DiscourseServer -> CacheProvider -> Launch WeightedGraphT
}.

End WithExternals.
End DiscourseLoader.

Module IdentityLoader.
Section WithExternals.
Context {E : Externals}.
Import Async.

Record IdentitySpec : Type := {
  identities : list Identity;
  discourseServerUrl : nullable string
}.

Record Loader : Type := {
  declaration : unit -> PluginDeclaration;
  contractIdentities : WeightedGraphT -> IdentitySpec -> Async WeightedGraphT
}.

End WithExternals.
End IdentityLoader.

Module InitiativesDirectory.
Section WithExternals.
Context {E : Externals}.
Import References.

Record InitiativesDirectory : Type := {
  localPath : string;
  remoteUrl : string
}.

Record LoadedInitiativesDirectory : Type := {
  referenceDetector : ReferenceDetector;
  initiatives : InitiativeRepository
}.

End WithExternals.
End InitiativesDirectory.

Module InitiativesLoader.
Section WithExternals.
Context {E : Externals}.
Import Async References InitiativesDirectory.

Record Loader : Type := {
  declaration : unit -> PluginDeclaration;
  loadDirectory :
    InitiativesDirectory -> TaskReporter -> Launch LoadedInitiativesDirectory;
  createGraph :
    InitiativeRepository -> ReferenceDetector -> Launch WeightedGraphT
}.

End WithExternals.
End InitiativesLoader.

(** ** [src/backend/pluginLoaders.js] *)
Module PluginLoaders.
Import Async References.
Local Open Scope async_scope.
Local Open Scope string_scope.

Module MirrorEnv.
Section WithExternals.
Context {E : Externals}.

Record t : Type := {
  initiativesDirectory : option string;
  githubToken : option GithubToken;
  reporter : TaskReporter;
  cache : CacheProvider
}.

End WithExternals.
End MirrorEnv.

Module GraphEnv.
Section WithExternals.
Context {E : Externals}.

Record t : Type := { githubToken : option GithubToken }.

End WithExternals.
End GraphEnv.

Section WithExternals.
Context {E : Externals}.

Record PluginLoaders : Type := {
  github : GithubLoader.Loader;
  discourse : DiscourseLoader.Loader;
  identity : IdentityLoader.Loader;
  initiatives : InitiativesLoader.Loader
}.

Record CachedProject : Type := {
  loadedInitiativesDir :
    option InitiativesDirectory.LoadedInitiativesDirectory;
  cache : CacheProvider;
  project : Project.Project
}.

Record PluginGraphs : Type := {
  graphs : list WeightedGraphT;
  cachedProject : CachedProject
}.

(** [if (project.initiatives)]: neither missing nor [null]. *)
Definition truthy_initiatives (i : optional (nullable Project.Initiatives))
  : option Project.Initiatives :=
  match i with
  | present (obj options) => Some options
  | _ => None
  end.

(** [if (!initiativesDirectory)] on a [?string]: [null], [undefined] and
    the empty string are falsy. *)
Definition truthy_directory (d : option string) : option string :=
  match d with
  | Some path => if truthy_string path then Some path else None
  | None => None
  end.

Definition declarations (loaders : PluginLoaders)
  (project : Project.Project) : list PluginDeclaration :=
  let plugins := [] in
  let plugins :=
    if truthy_length (Project.repoIds project)
    then push plugins (GithubLoader.declaration (github loaders) tt)
    else plugins in
  let plugins :=
    if truthy_nullable (Project.discourseServer project)
    then push plugins (DiscourseLoader.declaration (discourse loaders) tt)
    else plugins in
  let plugins :=
    if truthy_length (Project.identities project)
    then push plugins (IdentityLoader.declaration (identity loaders) tt)
    else plugins in
  let plugins :=
    match truthy_initiatives (Project.initiatives project) with
    | Some _ =>
        push plugins (InitiativesLoader.declaration (initiatives loaders) tt)
    | None => plugins
    end in
  plugins.

Definition updateMirror (loaders : PluginLoaders) (env : MirrorEnv.t)
  (project : Project.Project) : Async CachedProject :=
  let tasks : list (Promise unit) := [] in
  tasks <-
    match Project.discourseServer project with
    | obj server =>
        task <- call (DiscourseLoader.updateMirror (discourse loaders)
                        server (MirrorEnv.cache env) (MirrorEnv.reporter env)) ;;
        ret (push tasks task)
    | null => ret tasks
    end ;;
  tasks <-
    (if truthy_length (Project.repoIds project) then
       match MirrorEnv.githubToken env with
       | None => throwNew "Tried to load GitHub, but no GitHub token set"
       | Some githubToken =>
           task <- call (GithubLoader.updateMirror (github loaders)
                           (Project.repoIds project) githubToken
                           (MirrorEnv.cache env) (MirrorEnv.reporter env)) ;;
           ret (push tasks task)
       end
     else ret tasks) ;;
  loadedInitiativesDir <-
    match truthy_initiatives (Project.initiatives project) with
    | Some options =>
        match truthy_directory (MirrorEnv.initiativesDirectory env) with
        | None =>
            throwNew
              "Tried to load Initiatives, but no $INITIATIVES_DIRECTORY set"
        | Some initiativesDirectory =>
            loading <- call (InitiativesLoader.loadDirectory
                               (initiatives loaders)
                               {| InitiativesDirectory.localPath :=
                                    initiativesDirectory;
                                  InitiativesDirectory.remoteUrl :=
                                    Project.remoteUrl options |}
                               (MirrorEnv.reporter env)) ;;
            loaded <- await loading ;;
            ret (Some loaded)
        end
    | None => ret None
    end ;;
  _ <- await (Promise_all tasks) ;;
  ret {| project := project;
         cache := MirrorEnv.cache env;
         loadedInitiativesDir := loadedInitiativesDir |}.

Definition createReferenceDetector (loaders : PluginLoaders)
  (env : GraphEnv.t) (cached : CachedProject) : Async ReferenceDetector :=
  let refs : list ReferenceDetector := [] in
  refs <-
    (if truthy_length (Project.repoIds (project cached)) then
       match GraphEnv.githubToken env with
       | None => throwNew "Tried to load GitHub, but no GitHub token set"
       | Some githubToken =>
           detecting <- call (GithubLoader.referenceDetector (github loaders)
                                (Project.repoIds (project cached))
                                githubToken (cache cached)) ;;
           detector <- await detecting ;;
           ret (push refs detector)
       end
     else ret refs) ;;
  refs <-
    match Project.discourseServer (project cached) with
    | obj server =>
        detecting <- call (DiscourseLoader.referenceDetector
                             (discourse loaders) server (cache cached)) ;;
        detector <- await detecting ;;
        ret (push refs detector)
    | null => ret refs
    end ;;
  let refs :=
    match loadedInitiativesDir cached with
    | Some loaded =>
        push refs (InitiativesDirectory.referenceDetector loaded)
    | None => refs
    end in
  ret (CascadingReferenceDetector refs).

Definition createPluginGraphs (loaders : PluginLoaders) (env : GraphEnv.t)
  (cached : CachedProject) (referenceDetector : ReferenceDetector)
  : Async PluginGraphs :=
  let tasks : list (Promise WeightedGraphT) := [] in
  tasks <-
    match Project.discourseServer (project cached) with
    | obj server =>
        task <- call (DiscourseLoader.createGraph (discourse loaders)
                        server (cache cached)) ;;
        ret (push tasks task)
    | null => ret tasks
    end ;;
  tasks <-
    (if truthy_length (Project.repoIds (project cached)) then
       match GraphEnv.githubToken env with
       | None => throwNew "Tried to load GitHub, but no GitHub token set"
       | Some githubToken =>
           task <- call (GithubLoader.createGraph (github loaders)
                           (Project.repoIds (project cached))
                           githubToken (cache cached)) ;;
           ret (push tasks task)
       end
     else ret tasks) ;;
  tasks <-
    match loadedInitiativesDir cached with
    | Some loaded =>
        task <- call (InitiativesLoader.createGraph (initiatives loaders)
                        (InitiativesDirectory.initiatives loaded)
                        referenceDetector) ;;
        ret (push tasks task)
    | None => ret tasks
    end ;;
  built <- await (Promise_all tasks) ;;
  ret {| graphs := built;
         cachedProject :=
           {| cache := cache cached;
              project := project cached;
              loadedInitiativesDir := loadedInitiativesDir cached |} |}.

Definition contractPluginGraphs (loaders : PluginLoaders)
  (pluginGraphs : PluginGraphs) : Async WeightedGraphT :=
  let project := project (cachedProject pluginGraphs) in
  mergedGraph <- sync (WeightedGraph_merge (graphs pluginGraphs)) ;;
  if negb (truthy_length (Project.identities project)) then
    ret mergedGraph
  else
    let discourseServerUrl :=
      match Project.discourseServer project with
      | obj server => obj (Project.serverUrl server)
      | null => null
      end in
    let identitySpec :=
      {| IdentityLoader.identities := Project.identities project;
         IdentityLoader.discourseServerUrl := discourseServerUrl |} in
    IdentityLoader.contractIdentities (identity loaders)
      mergedGraph identitySpec.

(** The world once the forum mirror update has been launched, when the
    forum source applies. *)
Definition afterDiscourseMirror (loaders : PluginLoaders)
  (env : MirrorEnv.t) (project : Project.Project) (w : World) : World :=
  match Project.discourseServer project with
  | obj server =>
      fst (DiscourseLoader.updateMirror (discourse loaders) server
             (MirrorEnv.cache env) (MirrorEnv.reporter env) w)
  | null => w
  end.

(** The world once the code-hosting mirror update has been launched, when
    the code-hosting source applies and has its token. *)
Definition afterGithubMirror (loaders : PluginLoaders)
  (env : MirrorEnv.t) (project : Project.Project) (w : World) : World :=
  match Project.repoIds project, MirrorEnv.githubToken env with
  | _ :: _, Some githubToken =>
      fst (GithubLoader.updateMirror (github loaders)
             (Project.repoIds project) githubToken
             (MirrorEnv.cache env) (MirrorEnv.reporter env) w)
  | _, _ => w
  end.

(** A child detector that may be missing: the children it contributes,
    and what it answers for a token. *)
Definition children (child : option ReferenceDetector)
  : list ReferenceDetector :=
  match child with Some d => [d] | None => [] end.

Definition answer (child : option ReferenceDetector) (url : URL)
  : option NodeAddress.NodeAddressT :=
  match child with Some d => addressFromUrl d url | None => None end.

Definition orElse {A : Type} (first second : option A) : option A :=
  match first with Some a => Some a | None => second end.

End WithExternals.
End PluginLoaders.

(** ** The distribution normaliser, [core/algorithm/distributionToCred]

    Here the numbers are exact rationals: this is the algorithm with
    nothing rounded.  [DistributionToCred64] below is the same algorithm
    on the binary64 numbers the JavaScript computes with. *)
Module DistributionToCred.
Import NodeAddress.
Local Open Scope Q_scope.

Record Interval : Type := { startTimeMs : Z; endTimeMs : Z }.

Record TimelineDistribution : Type := {
  interval : Interval;
  intervalWeight : Q;
  distribution : list Q
}.

Record TimelineCredScores : Type := {
  intervals : list Interval;
  intervalCredScores : list (list Q)
}.

(** A node is a scoring node when its address "matches some prefix in
    [scoringAddresses]". *)
Definition isScoring (scoringAddresses : list NodeAddressT)
  (address : NodeAddressT) : bool :=
  existsb (fun prefix => hasPrefix address prefix) scoringAddresses.

(** Positions in [nodeOrder] of the scoring nodes. *)
Definition scoringNodeIndices (nodeOrder scoringAddresses : list NodeAddressT)
  : list nat :=
  filter
    (fun j =>
       match nth_error nodeOrder j with
       | Some address => isScoring scoringAddresses address
       | None => false
       end)
    (seq 0 (length nodeOrder)).

Definition sum (xs : list Q) : Q := fold_right Qplus 0 xs.

(** Modelled from the spec: step 1 of the normaliser, whose source file
    is not among the sources (only its test is).  "[scoringMass] = sum of
    the distribution's probability over every node in [nodeOrder] whose
    address matches some prefix in [scoringAddresses]". *)
Definition scoringMass (nodeOrder scoringAddresses : list NodeAddressT)
  (distribution : list Q) : Q :=
  sum (map (fun j => nth j distribution 0)
           (scoringNodeIndices nodeOrder scoringAddresses)).

(** Modelled from the spec: steps 2 and 3 of the normaliser.  "If
    [scoringMass == 0], every node's cred for this interval is [0]";
    "otherwise, for every node [j] in [nodeOrder] (scoring or not):
    [cred[j] = intervalWeight * distribution[j] / scoringMass]". *)
Definition intervalCred (nodeOrder scoringAddresses : list NodeAddressT)
  (d : TimelineDistribution) : list Q :=
  let mass := scoringMass nodeOrder scoringAddresses (distribution d) in
  map (fun j =>
         if Qeq_bool mass 0 then 0
         else intervalWeight d * nth j (distribution d) 0 / mass)
      (seq 0 (length nodeOrder)).

(** Modelled from the spec: [distributionToCred], "per interval
    independently"; "output preserves interval order and boundaries
    verbatim; an empty input sequence yields an empty output". *)
Definition distributionToCred (ds : list TimelineDistribution)
  (nodeOrder scoringAddresses : list NodeAddressT) : TimelineCredScores :=
  {| intervals := map interval ds;
     intervalCredScores := map (intervalCred nodeOrder scoringAddresses) ds |}.

(** The cred of node [j] in interval [i] of a result. *)
Definition credAt (scores : TimelineCredScores) (i j : nat) : Q :=
  nth j (nth i (intervalCredScores scores) []) 0.

(** The distributions and node order of the test file. *)
Definition na (parts : list string) : NodeAddressT := fromParts parts.

Definition test_nodeOrder : list NodeAddressT :=
  [na ["foo"%string]; na ["bar"%string]].

Definition test_ds : list TimelineDistribution :=
  [ {| interval := {| startTimeMs := 0; endTimeMs := 10 |};
       intervalWeight := 2;
       distribution := [1 # 2; 1 # 2] |};
    {| interval := {| startTimeMs := 10; endTimeMs := 20 |};
       intervalWeight := 10;
       distribution := [9 # 10; 1 # 10] |} ].

Definition test_zero_ds : list TimelineDistribution :=
  [ {| interval := {| startTimeMs := 0; endTimeMs := 10 |};
       intervalWeight := 2;
       distribution := [1; 0] |} ].

End DistributionToCred.

(** ** The distribution normaliser in binary64

    The same algorithm with the numbers the program has: the weights,
    probabilities and cred of the test file are IEEE 754 binary64 values
    ([Float64Array]), and every operation rounds. *)
Module DistributionToCred64.
Import Floats NodeAddress.
Local Open Scope float_scope.

Record TimelineDistribution : Type := {
  interval : DistributionToCred.Interval;
  intervalWeight : float;
  distribution : list float
}.

Record TimelineCredScores : Type := {
  intervals : list DistributionToCred.Interval;
  intervalCredScores : list (list float)
}.

(** [distribution[j]]: a position outside the array reads [undefined],
    which arithmetic turns into NaN. *)
Definition entry (distribution : list float) (j : nat) : float :=
  nth j distribution nan.

(** A sum accumulated from [0], left to right. *)
Definition sum (xs : list float) : float := fold_left PrimFloat.add xs 0.

(** Modelled from the spec: step 1 of the normaliser, whose source file
    is not among the sources (only its test is).  "[scoringMass] = sum of
    the distribution's probability over every node in [nodeOrder] whose
    address matches some prefix in [scoringAddresses]". *)
Definition scoringMass (nodeOrder scoringAddresses : list NodeAddressT)
  (distribution : list float) : float :=
  sum (map (entry distribution)
           (DistributionToCred.scoringNodeIndices nodeOrder scoringAddresses)).

(** Modelled from the spec: steps 2 and 3 of the normaliser.  "If
    [scoringMass == 0], every node's cred for this interval is [0]";
    "otherwise, for every node [j] in [nodeOrder] (scoring or not):
    [cred[j] = intervalWeight * distribution[j] / scoringMass]". *)
Definition intervalCred (nodeOrder scoringAddresses : list NodeAddressT)
  (d : TimelineDistribution) : list float :=
  let mass := scoringMass nodeOrder scoringAddresses (distribution d) in
  map (fun j =>
         if PrimFloat.eqb mass 0 then 0
         else intervalWeight d * entry (distribution d) j / mass)
      (seq 0 (length nodeOrder)).

(** Modelled from the spec: [distributionToCred], "per interval
    independently". *)
Definition distributionToCred (ds : list TimelineDistribution)
  (nodeOrder scoringAddresses : list NodeAddressT) : TimelineCredScores :=
  {| intervals := map interval ds;
     intervalCredScores := map (intervalCred nodeOrder scoringAddresses) ds |}.

(** The cred of node [j] in interval [i] of a result. *)
Definition credAt (scores : TimelineCredScores) (i j : nat) : float :=
  nth j (nth i (intervalCredScores scores) []) nan.


(** The rational a finite binary64 number stands for, in lowest terms. *)
Definition exact (x : float) : option Q :=
  match Prim2SF x with
  | S754_zero _ => Some 0%Q
  | S754_finite s m e =>
      let magnitude :=
        match e with
        | Z0 => inject_Z (Z.pos m)
        | Zpos p => inject_Z (Z.pos m * 2 ^ Z.pos p)
        | Zneg p => Qmake (Z.pos m) (2 ^ p)
        end in
      Some (Qred (if s then Qopp magnitude else magnitude))
  | _ => None
  end.







(** The two intervals of the test file: weight 2 on [0.5; 0.5] and
    weight 10 on [0.9; 0.1], as binary64 has them. *)
Definition test_ds : list TimelineDistribution :=
  [ {| interval := {| DistributionToCred.startTimeMs := 0;
                      DistributionToCred.endTimeMs := 10 |};
       intervalWeight := 2;
       distribution := [0.5; 0.5] |};
    {| interval := {| DistributionToCred.startTimeMs := 10;
                      DistributionToCred.endTimeMs := 20 |};
       intervalWeight := 10;
       distribution := [0x1.ccccccccccccdp-1; 0x1.999999999999ap-4] |} ].

End DistributionToCred64.


(** ** A concrete world

    An instance of the collaborators that records what was started and
    keeps graph objects on a heap, used to run the orchestrator on
    concrete projects. *)
Module Fixture.
Import Async References.
Local Open Scope string_scope.

(** [started]: the operations launched so far, oldest first.
    [heap]: the graph objects allocated so far; a graph reference is an
    index into it, and a graph object is the list of its node names. *)
Record FixtureWorld : Type := {
  started : list string;
  heap : list (list string)
}.

Definition emptyWorld : FixtureWorld := {| started := []; heap := [] |}.

Definition start (operation : string) (w : FixtureWorld) : FixtureWorld :=
  {| started := started w ++ [operation]; heap := heap w |}.

Definition allocate (graph : list string) (w : FixtureWorld)
  : FixtureWorld * nat :=
  ({| started := started w; heap := heap w ++ [graph] |}, length (heap w)).

Fixpoint hasDuplicate (names : list string) : bool :=
  match names with
  | [] => false
  | n :: rest => existsb (String.eqb n) rest || hasDuplicate rest
  end.

(** Namespace-disjoint union: a fresh object holding all nodes, or an
    exception when two graphs share a node. *)
Definition merge (graphs : list nat) (w : FixtureWorld)
  : FixtureWorld * Result nat :=
  let nodes := flat_map (fun g => nth g (heap w) []) graphs in
  if hasDuplicate nodes then
    (w, throw (JsError "graphs overlap"))
  else
    let '(w', merged) := allocate nodes w in (w', returns merged).

#[export] Instance externals : Externals := {|
  RepoId := string;
  Identity := string;
  GithubToken := string;
  CacheProvider := unit;
  TaskReporter := unit;
  PluginDeclaration := string;
  WeightedGraphT := nat;
  InitiativeRepository := list string;
  World := FixtureWorld;
  WeightedGraph_merge := merge
|}.

Definition resolved {A : Type} (operation : string) (a : A) : Launch A :=
  fun w => (start operation w, returns a).

Definition building (operation : string) (nodes : list string)
  : Launch WeightedGraphT :=
  fun w => let '(w', g) := allocate nodes (start operation w) in
           (w', returns g).

(** Detectors that all claim the token ["shared"], and each one token of
    its own. *)
Definition detects (own : string) (address : NodeAddress.NodeAddressT)
  : ReferenceDetector :=
  Detector (fun url =>
              if String.eqb url own || String.eqb url "shared"
              then Some address else None).

Definition githubDetector : ReferenceDetector :=
  detects "github.com/sourcecred" ["github"; "repo"].
Definition discourseDetector : ReferenceDetector :=
  detects "discourse.example/t/1" ["discourse"; "topic"].
Definition initiativeDetector : ReferenceDetector :=
  detects "initiative-1" ["initiatives"; "initiative"].

Definition loaded : InitiativesDirectory.LoadedInitiativesDirectory :=
  {| InitiativesDirectory.referenceDetector := initiativeDetector;
     InitiativesDirectory.initiatives := ["initiative-1"] |}.

Definition loaders : PluginLoaders.PluginLoaders :=
  {| PluginLoaders.github :=
       {| GithubLoader.declaration := fun _ => "github";
          GithubLoader.updateMirror :=
            fun _ _ _ _ => resolved "github.updateMirror" tt;
          GithubLoader.referenceDetector :=
            fun _ _ _ => resolved "github.referenceDetector" githubDetector;
          GithubLoader.createGraph :=
            fun _ _ _ => building "github.createGraph" ["github/repo"] |};
     PluginLoaders.discourse :=
       {| DiscourseLoader.declaration := fun _ => "discourse";
          DiscourseLoader.updateMirror :=
            fun _ _ _ => resolved "discourse.updateMirror" tt;
          DiscourseLoader.referenceDetector :=
            fun _ _ =>
              resolved "discourse.referenceDetector" discourseDetector;
          DiscourseLoader.createGraph :=
            fun _ _ => building "discourse.createGraph" ["discourse/topic"] |};
     PluginLoaders.identity :=
       {| IdentityLoader.declaration := fun _ => "identity";
          IdentityLoader.contractIdentities :=
            fun g _ w =>
              let '(w', contracted) :=
                allocate (nth g (heap w) [])
                         (start "identity.contractIdentities" w) in
              (w', returns contracted) |};
     PluginLoaders.initiatives :=
       {| InitiativesLoader.declaration := fun _ => "initiatives";
          InitiativesLoader.loadDirectory :=
            fun _ _ => resolved "initiatives.loadDirectory" loaded;
          InitiativesLoader.createGraph :=
            fun _ _ =>
              building "initiatives.createGraph" ["initiatives/1"] |} |}.

Definition forum : Project.DiscourseServer :=
  {| Project.serverUrl := "https://discourse.example";
     Project.apiUsername := undefined |}.

(** A project with every source configured. *)
Definition fullProject : Project.Project :=
  {| Project.id := "sourcecred";
     Project.initiatives :=
       present (obj {| Project.remoteUrl := "https://initiatives.example" |});
     Project.repoIds := ["sourcecred/sourcecred"];
     Project.discourseServer := obj forum;
     Project.identities := ["decentralion"] |}.

(** The same project without manual identity merges. *)
Definition noIdentities : Project.Project :=
  {| Project.id := "sourcecred";
     Project.initiatives :=
       present (obj {| Project.remoteUrl := "https://initiatives.example" |});
     Project.repoIds := ["sourcecred/sourcecred"];
     Project.discourseServer := obj forum;
     Project.identities := [] |}.

(** A project whose only configuration is a manual identity merge. *)
Definition identitiesOnly : Project.Project :=
  {| Project.id := "sourcecred";
     Project.initiatives := present null;
     Project.repoIds := [];
     Project.discourseServer := null;
     Project.identities := ["decentralion"] |}.

(** Repositories and initiatives, but no forum. *)
Definition noForum : Project.Project :=
  {| Project.id := "sourcecred";
     Project.initiatives :=
       present (obj {| Project.remoteUrl := "https://initiatives.example" |});
     Project.repoIds := ["sourcecred/sourcecred"];
     Project.discourseServer := null;
     Project.identities := [] |}.

Definition noToken : PluginLoaders.MirrorEnv.t :=
  {| PluginLoaders.MirrorEnv.initiativesDirectory := Some "/initiatives";
     PluginLoaders.MirrorEnv.githubToken := None;
     PluginLoaders.MirrorEnv.reporter := tt;
     PluginLoaders.MirrorEnv.cache := tt |}.

Definition noDirectory : PluginLoaders.MirrorEnv.t :=
  {| PluginLoaders.MirrorEnv.initiativesDirectory := None;
     PluginLoaders.MirrorEnv.githubToken := Some "token";
     PluginLoaders.MirrorEnv.reporter := tt;
     PluginLoaders.MirrorEnv.cache := tt |}.

Definition mirrorEnv : PluginLoaders.MirrorEnv.t :=
  {| PluginLoaders.MirrorEnv.initiativesDirectory := Some "/initiatives";
     PluginLoaders.MirrorEnv.githubToken := Some "token";
     PluginLoaders.MirrorEnv.reporter := tt;
     PluginLoaders.MirrorEnv.cache := tt |}.

Definition graphEnv : PluginLoaders.GraphEnv.t :=
  {| PluginLoaders.GraphEnv.githubToken := Some "token" |}.

Definition cached (p : Project.Project) : PluginLoaders.CachedProject :=
  {| PluginLoaders.loadedInitiativesDir := Some loaded;
     PluginLoaders.cache := tt;
     PluginLoaders.project := p |}.

(** Two graphs already on the heap, as [createPluginGraphs] leaves them. *)
Definition twoGraphs : FixtureWorld :=
  {| started := []; heap := [["github/repo"]; ["discourse/topic"]] |}.

Definition pluginGraphs (p : Project.Project) : PluginLoaders.PluginGraphs :=
  {| PluginLoaders.graphs := [0%nat; 1%nat];
     PluginLoaders.cachedProject := cached p |}.

(** A shape that gives nothing but the identifier. *)
Definition idOnly : Project.ProjectShape :=
  {| Project.shape_id := present "sourcecred";
     Project.shape_initiatives := undefined;
     Project.shape_repoIds := undefined;
     Project.shape_discourseServer := undefined;
     Project.shape_identities := undefined |}.

(** A 0.3.0 payload: a forum server with an API user name. *)
Definition fixtureV030 : Project.Project :=
  {| Project.id := "sourcecred";
     Project.initiatives := undefined;
     Project.repoIds := ["sourcecred/sourcecred"];
     Project.discourseServer :=
       obj {| Project.serverUrl := "https://discourse.example";
              Project.apiUsername := present "credbot" |};
     Project.identities := ["decentralion"] |}.

End Fixture.

(** ** A project where a shape is expected

    A [Project] is accepted wherever [$Shape<Project>] is: every
    property it has is a property the shape may have. *)
Module ProjectShapes.
Import Project.
Section WithExternals.
Context {E : Externals}.

Definition asShape (p : Project) : ProjectShape :=
  {| shape_id := present (id p);
     shape_initiatives := initiatives p;
     shape_repoIds := present (repoIds p);
     shape_discourseServer := present (discourseServer p);
     shape_identities := present (identities p) |}.

(** The shape [{id: i}]. *)
Definition onlyId (i : ProjectId) : ProjectShape :=
  {| shape_id := present i;
     shape_initiatives := undefined;
     shape_repoIds := undefined;
     shape_discourseServer := undefined;
     shape_identities := undefined |}.

End WithExternals.
End ProjectShapes.

(** ** Stages of [createPluginGraphs] *)
Module GraphStages.
Import Async References PluginLoaders.
Section WithExternals.
Context {E : Externals}.

Definition optionList {A : Type} (o : option A) : list A :=
  match o with Some a => [a] | None => [] end.

(** The world once the forum graph construction has been launched, when
    the forum source applies. *)
Definition afterDiscourseGraph (loaders : PluginLoaders)
  (cached : CachedProject) (w : World) : World :=
  match Project.discourseServer (project cached) with
  | obj server =>
      fst (DiscourseLoader.createGraph (discourse loaders) server
             (cache cached) w)
  | null => w
  end.

(** The value a launched task was fulfilled with, if there is a task and
    it was fulfilled. *)
Definition fulfilled {A : Type} (task : option (Promise A)) : option A :=
  match task with
  | Some (inr a) => Some a
  | _ => None
  end.

(** The cached project [updateMirror] makes of a project that has no
    initiatives. *)
Definition plainCached (env : MirrorEnv.t) (p : Project.Project)
  : CachedProject :=
  {| project := p;
     cache := MirrorEnv.cache env;
     loadedInitiativesDir := None |}.

End WithExternals.
End GraphStages.

(** ** The initiatives plugin's loader ([plugins/initiatives/loader]) *)
Module InitiativesLoaderImpl.
Import Async References InitiativesDirectory.
Local Open Scope async_scope.
Local Open Scope string_scope.

(** What the loader module imports: the plugin's [declaration], the two
    functions it wraps, [weightsForDeclaration], the [start] and [finish]
    methods of a [TaskReporter] (calls that may throw), and the making of
    the object [{graph, weights}]. *)
Class Imports {E : Externals} : Type := {
  GraphT : Type;
  WeightsT : Type;
  declaration : PluginDeclaration;
  _createGraph :
    InitiativeRepository -> ReferenceDetector -> World -> World * Result GraphT;
  _loadDirectory :
    InitiativesDirectory -> Launch LoadedInitiativesDirectory;
  weightsForDeclaration :
    PluginDeclaration -> World -> World * Result WeightsT;
  reporter_start : TaskReporter -> string -> World -> World * Result unit;
  reporter_finish : TaskReporter -> string -> World -> World * Result unit;
  weighted : GraphT -> WeightsT -> WeightedGraphT
}.

Section WithImports.
Context {E : Externals} {I : Imports}.

Definition loadDirectory (dir : InitiativesDirectory)
  (reporter : TaskReporter) : Async LoadedInitiativesDirectory :=
  _ <- sync (reporter_start reporter "initiatives") ;;
  loading <- call (_loadDirectory dir) ;;
  loadedDir <- await loading ;;
  _ <- sync (reporter_finish reporter "initiatives") ;;
  ret loadedDir.

Definition createGraph (repo : InitiativeRepository)
  (refs : ReferenceDetector) : Async WeightedGraphT :=
  graph <- sync (_createGraph repo refs) ;;
  weights <- sync (weightsForDeclaration declaration) ;;
  ret (weighted graph weights).

(** The default export.  Calling an [async] function runs its body and
    hands back the promise of its outcome. *)
Definition loader : InitiativesLoader.Loader :=
  {| InitiativesLoader.declaration := fun _ => declaration;
     InitiativesLoader.loadDirectory := loadDirectory;
     InitiativesLoader.createGraph := createGraph |}.

(** The world once [reporter.start] and the directory load have run. *)
Definition afterLoad (dir : InitiativesDirectory) (reporter : TaskReporter)
  (w : World) : World :=
  fst (_loadDirectory dir (fst (reporter_start reporter "initiatives" w))).

End WithImports.
End InitiativesLoaderImpl.

(** ** [src/backend/dataDirectory.js] *)
Module DataDirectory.
Import Async.
Local Open Scope async_scope.
Local Open Scope string_scope.

(** What the module imports: [path.join], [fs.mkdirp], the
    [better-sqlite3] constructor, [directoryForProjectId], [compatWriter]
    and the [toJSON] functions it is given.  A writer made by
    [compatWriter] is called and its result dropped: the call throws or
    returns. *)
Class Imports {E : Externals} : Type := {
  Database : Type;
  TimelineCred : Type;
  JSON : Type;
  path_join : string -> string -> string;
  fs_mkdirp : string -> Launch unit;
  newDatabase : string -> World -> World * Result Database;
  directoryForProjectId : Project.ProjectId -> string -> string;
  compatWriter :
    forall T J : Type, (T -> J) -> string ->
    string -> T -> World -> World * Result unit;
  WeightedGraph_toJSON : WeightedGraphT -> JSON;
  TimelineCred_toJSON : TimelineCred -> JSON;
  pluginsToJSON : list PluginDeclaration -> JSON
}.

Section WithImports.
Context {E : Externals} {I : Imports}.

(** [ProjectStorageExtras]: each artifact may be left out. *)
Record ProjectStorageExtras : Type := {
  weightedGraph : optional WeightedGraphT;
  cred : optional TimelineCred;
  pluginDeclarations : optional (list PluginDeclaration)
}.

Record Writers : Type := {
  writers_project : string -> Project.Project -> World -> World * Result unit;
  writers_weightedGraph :
    string -> WeightedGraphT -> World -> World * Result unit;
  writers_cred : string -> TimelineCred -> World -> World * Result unit;
  writers_pluginDeclarations :
    string -> list PluginDeclaration -> World -> World * Result unit
}.

Definition writers : Writers :=
  {| writers_project := compatWriter _ _ Project.projectToJSON "Project";
     writers_weightedGraph :=
       compatWriter _ _ WeightedGraph_toJSON "WeightedGraph";
     writers_cred := compatWriter _ _ TimelineCred_toJSON "TimelineCred";
     writers_pluginDeclarations :=
       compatWriter _ _ pluginsToJSON "PluginDeclarations" |}.

Record DataDirectory : Type := {
  _sourcecredDirectory : string;
  _cacheDirectory : string
}.

Definition constructor (sourcecredDirectory : string) : DataDirectory :=
  {| _sourcecredDirectory := sourcecredDirectory;
     _cacheDirectory := path_join sourcecredDirectory "cache" |}.

Definition database (this : DataDirectory) (id : string) : Async Database :=
  creating <- call (fs_mkdirp (_cacheDirectory this)) ;;
  _ <- await creating ;;
  let file := path_join (_cacheDirectory this) (id ++ ".db") in
  sync (newDatabase file).

(** [if (x)] on an artifact that may be left out: an object and an array,
    even an empty one, are truthy. *)
Definition whenGiven {A : Type} (x : optional A)
  (write : A -> World -> World * Result unit) : Async unit :=
  match x with
  | present a => sync (write a)
  | undefined => ret tt
  end.

Definition storeProject (this : DataDirectory) (project : Project.Project)
  (extras : ProjectStorageExtras) : Async unit :=
  let projectDirectory :=
    directoryForProjectId (Project.id project) (_sourcecredDirectory this) in
  let fileName := fun name : string => path_join projectDirectory name in
  creating <- call (fs_mkdirp projectDirectory) ;;
  _ <- await creating ;;
  _ <- sync (writers_project writers (fileName "project.json") project) ;;
  _ <- whenGiven (weightedGraph extras)
         (writers_weightedGraph writers (fileName "weightedGraph.json")) ;;
  _ <- whenGiven (cred extras)
         (writers_cred writers (fileName "cred.json")) ;;
  _ <- whenGiven (pluginDeclarations extras)
         (writers_pluginDeclarations writers
            (fileName "pluginDeclarations.json")) ;;
  ret tt.

End WithImports.
End DataDirectory.

(** ** Concrete imports

    The collaborators of the initiatives loader and of the data
    directory in the concrete world: every call records itself, a
    directory load from ["/missing"] is rejected, and no directory can be
    created under ["/readonly"]. *)
Module FixtureImports.
Import Async References Fixture.
Local Open Scope string_scope.

Definition loadFrom (dir : InitiativesDirectory.InitiativesDirectory)
  : Launch InitiativesDirectory.LoadedInitiativesDirectory :=
  fun w =>
    if String.eqb (InitiativesDirectory.localPath dir) "/missing"
    then (start "_loadDirectory" w, throw (JsError "no such directory"))
    else (start "_loadDirectory" w, returns loaded).

#[export] Instance initiativesImports : InitiativesLoaderImpl.Imports := {|
  InitiativesLoaderImpl.GraphT := list string;
  InitiativesLoaderImpl.WeightsT := list (string * nat);
  InitiativesLoaderImpl.declaration := "initiatives";
  InitiativesLoaderImpl._createGraph :=
    fun repo _ w => (start "_createGraph" w, returns repo);
  InitiativesLoaderImpl._loadDirectory := loadFrom;
  InitiativesLoaderImpl.weightsForDeclaration :=
    fun declaration w => (w, returns [(declaration, 1%nat)]);
  InitiativesLoaderImpl.reporter_start :=
    fun _ task w => (start ("start " ++ task) w, returns tt);
  InitiativesLoaderImpl.reporter_finish :=
    fun _ task w => (start ("finish " ++ task) w, returns tt);
  InitiativesLoaderImpl.weighted := fun graph _ => length graph
|}.

(** The fixture loaders with the real initiatives loader in place. *)
Definition realLoaders : PluginLoaders.PluginLoaders :=
  {| PluginLoaders.github := PluginLoaders.github loaders;
     PluginLoaders.discourse := PluginLoaders.discourse loaders;
     PluginLoaders.identity := PluginLoaders.identity loaders;
     PluginLoaders.initiatives := InitiativesLoaderImpl.loader |}.

Definition missingDirectory : PluginLoaders.MirrorEnv.t :=
  {| PluginLoaders.MirrorEnv.initiativesDirectory := Some "/missing";
     PluginLoaders.MirrorEnv.githubToken := Some "token";
     PluginLoaders.MirrorEnv.reporter := tt;
     PluginLoaders.MirrorEnv.cache := tt |}.

Definition reporter : @TaskReporter externals := tt.

Definition initiativesDir : InitiativesDirectory.InitiativesDirectory :=
  {| InitiativesDirectory.localPath := "/initiatives";
     InitiativesDirectory.remoteUrl := "https://initiatives.example" |}.

Definition missingDir : InitiativesDirectory.InitiativesDirectory :=
  {| InitiativesDirectory.localPath := "/missing";
     InitiativesDirectory.remoteUrl := "https://initiatives.example" |}.

Definition repository : @InitiativeRepository externals := ["initiative-1"].

(** What [createProject] makes of the shape [idOnly]. *)
Definition defaultProject : Project.Project :=
  {| Project.id := "sourcecred";
     Project.initiatives := present null;
     Project.repoIds := [];
     Project.discourseServer := null;
     Project.identities := [] |}.

Definition noTokenGraphEnv : PluginLoaders.GraphEnv.t :=
  {| PluginLoaders.GraphEnv.githubToken := None |}.

(** Two graphs on the heap that share a node. *)
Definition overlapping : FixtureWorld :=
  {| started := []; heap := [["shared/node"]; ["shared/node"]] |}.

Definition mkdirp (dir : string) : Launch unit :=
  fun w =>
    if String.prefix "/readonly" dir
    then (start ("mkdirp " ++ dir) w, throw (JsError "read-only file system"))
    else (start ("mkdirp " ++ dir) w, returns tt).

#[export] Instance storageImports : DataDirectory.Imports := {|
  DataDirectory.Database := string;
  DataDirectory.TimelineCred := unit;
  DataDirectory.JSON := string;
  DataDirectory.path_join := fun a b => a ++ "/" ++ b;
  DataDirectory.fs_mkdirp := mkdirp;
  DataDirectory.newDatabase :=
    fun file w => (start ("open " ++ file) w, returns file);
  DataDirectory.directoryForProjectId :=
    fun id root => root ++ "/projects/" ++ id;
  DataDirectory.compatWriter :=
    fun _ _ _ _ path _ w => (start ("write " ++ path) w, returns tt);
  DataDirectory.WeightedGraph_toJSON := fun _ => "graph";
  DataDirectory.TimelineCred_toJSON := fun _ => "cred";
  DataDirectory.pluginsToJSON := fun _ => "plugins"
|}.

End FixtureImports.

(** * Properties *)

(** ** Project construction, serialisation and upgrade *)
Module ProjectProperties.
Import Compat Project.
Local Open Scope string_scope.

Section WithExternals.
Context {E : Externals}.

Lemma truthy_string_nonempty (s : string) :
  truthy_string s = true <-> s <> "".
Proof.
  destruct s; simpl; split; intro H; try reflexivity; try discriminate.
  exfalso; apply H; reflexivity.
Qed.

(** C8. [createProject] throws exactly when the given shape has no
    non-empty [id]; otherwise it returns the project with that [id] in
    which every property the shape leaves out has its default (no
    repositories, no identities, no forum server, no initiatives) and
    every property the shape gives is kept. *)
Theorem createProject_requires_id (p : ProjectShape) :
  (fails (createProject p) <->
     shape_id p = undefined \/ shape_id p = present "") /\
  (forall i : ProjectId,
     shape_id p = present i -> i <> "" ->
     exists q : Project,
       createProject p = returns q /\
       id q = i /\
       repoIds q =
         match shape_repoIds p with undefined => [] | present v => v end /\
       identities q =
         match shape_identities p with undefined => [] | present v => v end /\
       discourseServer q =
         match shape_discourseServer p with
         | undefined => null
         | present v => v
         end /\
       initiatives q =
         match shape_initiatives p with
         | undefined => present null
         | present v => present v
         end).
Proof.
  split.
  - unfold createProject, fails. destruct (shape_id p) as [|i] eqn:Hid.
    + split; [intros _; left; reflexivity | intros _; eexists; reflexivity].
    + destruct i as [|c i']; simpl.
      * split; [intros _; right; reflexivity | intros _; eexists; reflexivity].
      * split.
        -- intros [e He]; discriminate He.
        -- intros [H | H]; discriminate H.
  - intros i Hid Hne. unfold createProject. rewrite Hid.
    apply truthy_string_nonempty in Hne. rewrite Hne. simpl.
    eexists; split; [reflexivity |]. simpl.
    unfold spread.
    destruct (shape_repoIds p), (shape_identities p),
      (shape_discourseServer p), (shape_initiatives p);
      repeat split; reflexivity.
Qed.

(** C4. Serialising a project always tags it with the current version
    ["0.5.0"], and reading the serialised document back gives the same
    project. *)
Theorem projectFromJSON_projectToJSON (p : Project) :
  projectFromJSON (projectToJSON p) = returns p /\
  version (fst (projectToJSON p)) = "0.5.0" /\
  fst (projectToJSON p) = COMPAT_INFO /\
  snd (projectToJSON p) = p.
Proof.
  repeat split; reflexivity.
Qed.

Lemma legacyShape_tag (tag : string) (p : Project) :
  legacyShape tag p = true ->
  tag = "0.3.0" \/ tag = "0.3.1" \/ tag = "0.4.0".
Proof.
  unfold legacyShape.
  destruct (String.eqb_spec tag "0.3.0"); [auto |].
  destruct (String.eqb_spec tag "0.3.1"); [auto |].
  destruct (String.eqb_spec tag "0.4.0"); [auto |].
  discriminate.
Qed.

Lemma serverV050_normal (s : nullable DiscourseServer) :
  serverV050 s = true ->
  s = match s with
      | null => null
      | obj d => obj {| serverUrl := serverUrl d; apiUsername := undefined |}
      end.
Proof.
  destruct s as [|[url user]]; simpl; [reflexivity |].
  destruct user; [reflexivity | discriminate].
Qed.

(** C5. For a valid persisted payload [p] of version 0.3.0, 0.3.1 or
    0.4.0 the table [upgrades] has a migration for its tag, and the
    migrated object has the 0.5.0 shape, the same [id], [repoIds] and
    [identities] as [p], [initiatives] set to [null], and the forum
    server of [p] reduced to its [serverUrl] ([null] stays [null]); for
    0.4.0 that is the forum server of [p] unchanged. *)
Theorem upgrades_legacy_documents (tag : string) (p : Project) :
  legacyShape tag p = true ->
  exists upgrade : Project -> Project,
    lookup tag upgrades = Some upgrade /\
    ProjectV050 (upgrade p) = true /\
    id (upgrade p) = id p /\
    repoIds (upgrade p) = repoIds p /\
    identities (upgrade p) = identities p /\
    initiatives (upgrade p) = present null /\
    discourseServer (upgrade p) =
      match discourseServer p with
      | null => null
      | obj d => obj {| serverUrl := serverUrl d; apiUsername := undefined |}
      end /\
    (tag = "0.4.0" -> discourseServer (upgrade p) = discourseServer p).
Proof.
  intros Hshape.
  destruct (legacyShape_tag _ _ Hshape) as [-> | [-> | ->]].
  - exists upgradeFrom030. simpl.
    repeat split; try reflexivity; try discriminate.
    unfold ProjectV050; simpl. destruct (discourseServer p); reflexivity.
  - exists upgradeFrom030. simpl.
    repeat split; try reflexivity; try discriminate.
    unfold ProjectV050; simpl. destruct (discourseServer p); reflexivity.
  - exists upgradeFrom040.
    unfold legacyShape, ProjectV040 in Hshape; simpl in Hshape.
    apply andb_prop in Hshape as [_ Hserver].
    simpl. repeat split; try reflexivity.
    + unfold ProjectV050; simpl. exact Hserver.
    + apply serverV050_normal; exact Hserver.
Qed.

(** Read through [projectFromJSON], a legacy document is its payload run
    through the migration its tag selects. *)
Lemma projectFromJSON_legacy (tag : string) (p : Project) :
  legacyShape tag p = true ->
  exists upgrade : Project -> Project,
    lookup tag upgrades = Some upgrade /\
    projectFromJSON (document tag p) = returns (upgrade p).
Proof.
  intros Hshape.
  destruct (legacyShape_tag _ _ Hshape) as [-> | [-> | ->]];
    eexists; split; reflexivity.
Qed.

(** A version tag outside the table is rejected. *)
Lemma projectFromJSON_unknown_version (tag : string) (p : Project) :
  tag <> "0.5.0" -> lookup tag upgrades = None ->
  projectFromJSON (document tag p) =
    throw (CompatError "sourcecred/project" tag).
Proof.
  intros Hcurrent Hnone. unfold projectFromJSON, document, fromCompat.
  simpl. destruct (String.eqb_spec tag "0.5.0") as [Heq | _];
    [contradiction |].
  simpl in Hnone. unfold version. rewrite Hnone. reflexivity.
Qed.

End WithExternals.

Import Fixture.

Lemma createProject_requires_id_witness :
  exists q : Project,
    createProject idOnly = returns q /\
    id q = "sourcecred" /\
    repoIds q = [] /\ identities q = [] /\
    discourseServer q = null /\ initiatives q = present null.
Proof.
  apply (proj2 (createProject_requires_id idOnly) "sourcecred").
  - reflexivity.
  - discriminate.
Defined.

Lemma upgrades_legacy_documents_witness :
  legacyShape "0.3.0" fixtureV030 = true /\
  exists upgrade : Project -> Project,
    lookup "0.3.0" upgrades = Some upgrade /\
    ProjectV050 (upgrade fixtureV030) = true /\
    id (upgrade fixtureV030) = "sourcecred" /\
    repoIds (upgrade fixtureV030) = ["sourcecred/sourcecred"] /\
    identities (upgrade fixtureV030) = ["decentralion"] /\
    initiatives (upgrade fixtureV030) = present null /\
    discourseServer (upgrade fixtureV030) =
      obj {| serverUrl := "https://discourse.example";
             apiUsername := undefined |} /\
    ("0.3.0" = "0.4.0" ->
     discourseServer (upgrade fixtureV030) = discourseServer fixtureV030).
Proof.
  split; [reflexivity |].
  apply (upgrades_legacy_documents "0.3.0" fixtureV030). reflexivity.
Defined.

End ProjectProperties.

(** ** The orchestrator *)
Module PluginLoadersProperties.
Import Async References PluginLoaders.
Local Open Scope string_scope.
Local Open Scope list_scope.

(** Runs the monad of asynchronous functions one step. *)
Ltac step_async :=
  unfold bind, call, await, ret, throwNew, sync, push, throw, returns;
  simpl.

Section WithExternals.
Context {E : Externals}.
Variable loaders : PluginLoaders.

Lemma truthy_length_nonempty (A : Type) (xs : list A) :
  truthy_length xs = true <-> xs <> [].
Proof.
  destruct xs; simpl; split; intro H; try reflexivity; try discriminate.
  exfalso; apply H; reflexivity.
Qed.

(** An asynchronous function that returns has run each of its steps to
    a return. *)
Lemma bind_returns (A B : Type) (c : Async A) (k : A -> Async B)
  (w w' : World) (b : B) :
  bind c k w = (w', returns b) ->
  exists (a : A) (w1 : World), c w = (w1, returns a) /\ k a w1 = (w', returns b).
Proof.
  unfold bind. destruct (c w) as [w1 [e|a]]; intros H.
  - discriminate H.
  - exists a, w1. split; [reflexivity | exact H].
Qed.

(** C10. [declarations] lists the plugin declarations in the order
    code-hosting, forum, identity, initiatives, each one exactly when the
    project's repository list is non-empty, its forum server is set, its
    identity list is non-empty, its initiatives are set.  So a project
    with manual identity merges gets the identity declaration, while a
    project with nothing but identities makes [updateMirror] start
    nothing. *)
Theorem declarations_order (project : Project.Project) :
  declarations loaders project =
    (if truthy_length (Project.repoIds project)
     then [GithubLoader.declaration (github loaders) tt] else []) ++
    (if truthy_nullable (Project.discourseServer project)
     then [DiscourseLoader.declaration (discourse loaders) tt] else []) ++
    (if truthy_length (Project.identities project)
     then [IdentityLoader.declaration (identity loaders) tt] else []) ++
    (match truthy_initiatives (Project.initiatives project) with
     | Some _ => [InitiativesLoader.declaration (initiatives loaders) tt]
     | None => []
     end) /\
  (Project.identities project <> [] ->
   In (IdentityLoader.declaration (identity loaders) tt)
      (declarations loaders project)) /\
  (Project.repoIds project = [] ->
   Project.discourseServer project = null ->
   truthy_initiatives (Project.initiatives project) = None ->
   forall (env : MirrorEnv.t) (w : World),
     updateMirror loaders env project w =
       (w, returns {| project := project;
                      cache := MirrorEnv.cache env;
                      loadedInitiativesDir := None |})).
Proof.
  assert (Horder :
    declarations loaders project =
      (if truthy_length (Project.repoIds project)
       then [GithubLoader.declaration (github loaders) tt] else []) ++
      (if truthy_nullable (Project.discourseServer project)
       then [DiscourseLoader.declaration (discourse loaders) tt] else []) ++
      (if truthy_length (Project.identities project)
       then [IdentityLoader.declaration (identity loaders) tt] else []) ++
      (match truthy_initiatives (Project.initiatives project) with
       | Some _ => [InitiativesLoader.declaration (initiatives loaders) tt]
       | None => []
       end)).
  { unfold declarations, push.
    destruct (truthy_length (Project.repoIds project)),
      (truthy_nullable (Project.discourseServer project)),
      (truthy_length (Project.identities project)),
      (truthy_initiatives (Project.initiatives project)); reflexivity. }
  split; [exact Horder |]. split.
  - intros Hids. rewrite Horder.
    apply truthy_length_nonempty in Hids. rewrite Hids.
    rewrite !in_app_iff. right; right; left; left; reflexivity.
  - intros Hrepos Hforum Hinit env w.
    unfold updateMirror. rewrite Hrepos, Hforum, Hinit. reflexivity.
Qed.

(** C2, as the code has it.  When the repository list is non-empty and
    no token is given, [updateMirror] throws its configuration error
    with nothing launched but the forum mirror update, and that only if
    the project has a forum server.  When the initiatives are set and no
    directory is given (and the token check passed), it throws its
    configuration error with nothing launched but the forum and
    code-hosting mirror updates that apply; the directory is never
    loaded. *)
Theorem updateMirror_configuration_errors
  (env : MirrorEnv.t) (project : Project.Project) (w : World) :
  (Project.repoIds project <> [] ->
   MirrorEnv.githubToken env = None ->
   updateMirror loaders env project w =
     (afterDiscourseMirror loaders env project w,
      throw (JsError "Tried to load GitHub, but no GitHub token set")) /\
   (Project.discourseServer project = null ->
    fst (updateMirror loaders env project w) = w)) /\
  (truthy_initiatives (Project.initiatives project) <> None ->
   truthy_directory (MirrorEnv.initiativesDirectory env) = None ->
   Project.repoIds project = [] \/ MirrorEnv.githubToken env <> None ->
   updateMirror loaders env project w =
     (afterGithubMirror loaders env project
        (afterDiscourseMirror loaders env project w),
      throw (JsError
        "Tried to load Initiatives, but no $INITIATIVES_DIRECTORY set")) /\
   (Project.discourseServer project = null ->
    Project.repoIds project = [] ->
    fst (updateMirror loaders env project w) = w)).
Proof.
  split.
  - intros Hrepos Htoken.
    apply truthy_length_nonempty in Hrepos.
    assert (Hrun :
      updateMirror loaders env project w =
        (afterDiscourseMirror loaders env project w,
         throw (JsError "Tried to load GitHub, but no GitHub token set"))).
    { unfold updateMirror, afterDiscourseMirror.
      rewrite Hrepos, Htoken.
      destruct (Project.discourseServer project) as [|server]; step_async;
        [reflexivity |].
      destruct (DiscourseLoader.updateMirror _ _ _ _ _); reflexivity. }
    split; [exact Hrun |].
    intros Hforum. rewrite Hrun. unfold afterDiscourseMirror.
    rewrite Hforum. reflexivity.
  - intros Hinit Hdir Hcheck.
    assert (Hrun :
      updateMirror loaders env project w =
        (afterGithubMirror loaders env project
           (afterDiscourseMirror loaders env project w),
         throw (JsError
           "Tried to load Initiatives, but no $INITIATIVES_DIRECTORY set"))).
    { unfold updateMirror, afterGithubMirror, afterDiscourseMirror.
      rewrite Hdir.
      destruct (truthy_initiatives (Project.initiatives project));
        [| contradiction].
      destruct (Project.discourseServer project) as [|server]; step_async.
      - destruct (Project.repoIds project) as [|r rs]; simpl;
          [reflexivity |].
        destruct (MirrorEnv.githubToken env) as [token|].
        + destruct (GithubLoader.updateMirror _ _ _ _ _ _); reflexivity.
        + destruct Hcheck as [H | H]; [discriminate H | contradiction].
      - destruct (DiscourseLoader.updateMirror _ _ _ _ _) as [w1 t1]; simpl.
        destruct (Project.repoIds project) as [|r rs]; simpl;
          [reflexivity |].
        destruct (MirrorEnv.githubToken env) as [token|].
        + destruct (GithubLoader.updateMirror _ _ _ _ _ _); reflexivity.
        + destruct Hcheck as [H | H]; [discriminate H | contradiction]. }
    split; [exact Hrun |].
    intros Hforum Hrepos. rewrite Hrun.
    unfold afterGithubMirror, afterDiscourseMirror.
    rewrite Hforum, Hrepos. reflexivity.
Qed.

(** A cached project made by [updateMirror] carries the project it was
    given, and a loaded initiatives directory exactly when the
    initiatives source applies. *)
Lemma updateMirror_loaded_iff (env : MirrorEnv.t)
  (project0 : Project.Project) (w w' : World) (cached : CachedProject) :
  updateMirror loaders env project0 w = (w', returns cached) ->
  project cached = project0 /\
  (loadedInitiativesDir cached = None <->
   truthy_initiatives (Project.initiatives project0) = None).
Proof.
  unfold updateMirror. intros Hrun.
  apply bind_returns in Hrun as (tasks1 & w1 & _ & Hrun).
  apply bind_returns in Hrun as (tasks2 & w2 & _ & Hrun).
  apply bind_returns in Hrun as (dir & w3 & Hdir & Hrun).
  apply bind_returns in Hrun as (done & w4 & _ & Hrun).
  injection Hrun as _ <-. simpl. split; [reflexivity |].
  destruct (truthy_initiatives (Project.initiatives project0)) as [options|].
  - destruct (truthy_directory (MirrorEnv.initiativesDirectory env));
      [| discriminate Hdir].
    apply bind_returns in Hdir as (loading & w5 & _ & Hdir).
    apply bind_returns in Hdir as (loaded & w6 & _ & Hdir).
    injection Hdir as _ <-. split; intro H; discriminate H.
  - injection Hdir as _ <-. split; reflexivity.
Qed.

(** C6. When the project has no manual identity merges,
    [contractPluginGraphs] is the merge of the per-source graphs and
    nothing else: it returns the very reference [merge] returned (or
    throws what [merge] threw) and leaves the world as [merge] left it,
    so no copy is allocated and no contraction is run. *)
Theorem contractPluginGraphs_no_identities
  (pluginGraphs : PluginGraphs) (w : World) :
  Project.identities (project (cachedProject pluginGraphs)) = [] ->
  contractPluginGraphs loaders pluginGraphs w =
    WeightedGraph_merge (graphs pluginGraphs) w.
Proof.
  intros Hids. unfold contractPluginGraphs. rewrite Hids. step_async.
  destruct (WeightedGraph_merge (graphs pluginGraphs) w) as [w' [e|g]];
    reflexivity.
Qed.

(** X11. With identities, the result is whatever the identity plugin's
    contraction makes of the merged graph. *)
Lemma contractPluginGraphs_identities
  (pluginGraphs : PluginGraphs) (w w' : World) (merged : WeightedGraphT) :
  Project.identities (project (cachedProject pluginGraphs)) <> [] ->
  WeightedGraph_merge (graphs pluginGraphs) w = (w', returns merged) ->
  contractPluginGraphs loaders pluginGraphs w =
    IdentityLoader.contractIdentities (identity loaders) merged
      {| IdentityLoader.identities :=
           Project.identities (project (cachedProject pluginGraphs));
         IdentityLoader.discourseServerUrl :=
           match Project.discourseServer
                   (project (cachedProject pluginGraphs)) with
           | obj server => obj (Project.serverUrl server)
           | null => null
           end |} w'.
Proof.
  intros Hids Hmerge. apply truthy_length_nonempty in Hids.
  unfold contractPluginGraphs. step_async.
  rewrite Hmerge, Hids. reflexivity.
Qed.

(** A cascade asks its first child, and the remaining children only if
    the first has no match. *)
Lemma addressFromUrl_cascade (first : ReferenceDetector)
  (rest : list ReferenceDetector) (url : URL) :
  addressFromUrl (CascadingReferenceDetector (first :: rest)) url =
    orElse (addressFromUrl first url)
           (addressFromUrl (CascadingReferenceDetector rest) url).
Proof. reflexivity. Qed.

Lemma addressFromUrl_children (gh dc ini : option ReferenceDetector)
  (url : URL) :
  addressFromUrl
    (CascadingReferenceDetector (children gh ++ children dc ++ children ini))
    url =
  orElse (answer gh url) (orElse (answer dc url) (answer ini url)).
Proof.
  destruct gh as [g|], dc as [d|], ini as [i|]; simpl;
    repeat match goal with
           | |- context [addressFromUrl ?r url] =>
               destruct (addressFromUrl r url)
           end; reflexivity.
Qed.

(** C7. Whenever [createReferenceDetector] returns, it returns a
    cascading detector whose children are, in this order, the
    code-hosting detector (there exactly when the repository list is
    non-empty), the forum detector (there exactly when a forum server is
    set) and the initiatives detector (there exactly when a loaded
    directory is cached, which for a cached project made by
    [updateMirror] is exactly when the project's initiatives are set);
    the first two are what the loaders' detector calls resolved to.  For
    every token the cascade answers what the first of these children
    that matches answers. *)
Theorem createReferenceDetector_cascade
  (env : GraphEnv.t) (cached : CachedProject) (w w' : World)
  (detector : ReferenceDetector) :
  createReferenceDetector loaders env cached w = (w', returns detector) ->
  exists gh dc ini : option ReferenceDetector,
    detector =
      CascadingReferenceDetector
        (children gh ++ children dc ++ children ini) /\
    (gh = None <-> Project.repoIds (project cached) = []) /\
    (dc = None <-> Project.discourseServer (project cached) = null) /\
    ini = option_map InitiativesDirectory.referenceDetector
            (loadedInitiativesDir cached) /\
    (forall (mirrorEnv : MirrorEnv.t) (project0 : Project.Project)
            (w0 w1 : World),
       updateMirror loaders mirrorEnv project0 w0 = (w1, returns cached) ->
       (ini = None <->
        truthy_initiatives (Project.initiatives project0) = None)) /\
    (forall d, gh = Some d ->
       exists token w1,
         GraphEnv.githubToken env = Some token /\
         GithubLoader.referenceDetector (github loaders)
           (Project.repoIds (project cached)) token (cache cached) w =
           (w1, returns d)) /\
    (forall d, dc = Some d ->
       exists server w0,
         Project.discourseServer (project cached) = obj server /\
         DiscourseLoader.referenceDetector (discourse loaders)
           server (cache cached) w0 = (w', returns d)) /\
    (forall url : URL,
       addressFromUrl detector url =
         orElse (answer gh url) (orElse (answer dc url) (answer ini url))).
Proof.
  unfold createReferenceDetector. intros Hrun.
  apply bind_returns in Hrun as (refs1 & w1 & Hgh & Hrun).
  apply bind_returns in Hrun as (refs2 & w2 & Hdc & Hrun).
  injection Hrun as <- <-.
  assert (Hfirst : exists gh : option ReferenceDetector,
    refs1 = children gh /\
    (gh = None <-> Project.repoIds (project cached) = []) /\
    (forall d, gh = Some d ->
       exists token w1',
         GraphEnv.githubToken env = Some token /\
         GithubLoader.referenceDetector (github loaders)
           (Project.repoIds (project cached)) token (cache cached) w =
           (w1', returns d))).
  { destruct (Project.repoIds (project cached)) as [|r rs] eqn:Hrepos;
      simpl in Hgh.
    - injection Hgh as _ <-. exists None.
      split; [reflexivity |]. split; [tauto |]. discriminate.
    - destruct (GraphEnv.githubToken env) as [token|]; [| discriminate Hgh].
      apply bind_returns in Hgh as (detecting & w3 & Hcall & Hgh).
      apply bind_returns in Hgh as (d & w4 & Hawait & Hgh).
      injection Hgh as _ <-.
      unfold call in Hcall.
      destruct (GithubLoader.referenceDetector _ _ _ _ _) as [w5 p5] eqn:Hop.
      injection Hcall as <- <-. injection Hawait as _ ->.
      exists (Some d). split; [reflexivity |]. split.
      + split; discriminate.
      + intros d' Hd'. injection Hd' as <-.
        exists token, w5. split; [reflexivity | exact Hop]. }
  destruct Hfirst as (gh & -> & Hgh_iff & Hgh_from).
  assert (Hsecond : exists dc : option ReferenceDetector,
    refs2 = children gh ++ children dc /\
    (dc = None <-> Project.discourseServer (project cached) = null) /\
    (forall d, dc = Some d ->
       exists server w0,
         Project.discourseServer (project cached) = obj server /\
         DiscourseLoader.referenceDetector (discourse loaders)
           server (cache cached) w0 = (w2, returns d))).
  { destruct (Project.discourseServer (project cached)) as [|server].
    - injection Hdc as _ <-. exists None.
      split; [symmetry; apply app_nil_r |]. split; [tauto |]. discriminate.
    - apply bind_returns in Hdc as (detecting & w3 & Hcall & Hdc).
      apply bind_returns in Hdc as (d & w4 & Hawait & Hdc).
      injection Hdc as <- <-.
      unfold call in Hcall.
      destruct (DiscourseLoader.referenceDetector _ _ _ _) as [w5 p5] eqn:Hop.
      injection Hcall as <- <-. injection Hawait as <- ->.
      exists (Some d). split; [reflexivity |]. split.
      + split; discriminate.
      + intros d' Hd'. injection Hd' as <-.
        exists server, w1. split; [reflexivity | exact Hop]. }
  destruct Hsecond as (dc & -> & Hdc_iff & Hdc_from).
  exists gh, dc,
    (option_map InitiativesDirectory.referenceDetector
       (loadedInitiativesDir cached)).
  assert (Hshape :
    CascadingReferenceDetector
      match loadedInitiativesDir cached with
      | Some loaded =>
          push (children gh ++ children dc)
               (InitiativesDirectory.referenceDetector loaded)
      | None => children gh ++ children dc
      end =
    CascadingReferenceDetector
      (children gh ++ children dc ++
       children (option_map InitiativesDirectory.referenceDetector
                   (loadedInitiativesDir cached)))).
  { destruct (loadedInitiativesDir cached); unfold push; simpl.
    - rewrite <- app_assoc. reflexivity.
    - rewrite app_nil_r. reflexivity. }
  rewrite Hshape.
  split; [reflexivity |].
  split; [exact Hgh_iff |].
  split; [exact Hdc_iff |].
  split; [reflexivity |].
  split.
  { intros mirrorEnv project0 w0 w3 Hmirror.
    destruct (updateMirror_loaded_iff _ _ _ _ _ Hmirror) as [_ Hloaded].
    rewrite <- Hloaded.
    destruct (loadedInitiativesDir cached); simpl;
      split; intro H; congruence. }
  split; [exact Hgh_from |].
  split; [exact Hdc_from |].
  intros url. apply addressFromUrl_children.
Qed.

(** X12. The token check of [createReferenceDetector] comes first: without a
    token for a non-empty repository list it throws with the world
    untouched. *)
Lemma createReferenceDetector_missing_token
  (env : GraphEnv.t) (cached : CachedProject) (w : World) :
  Project.repoIds (project cached) <> [] ->
  GraphEnv.githubToken env = None ->
  createReferenceDetector loaders env cached w =
    (w, throw (JsError "Tried to load GitHub, but no GitHub token set")).
Proof.
  intros Hrepos Htoken. apply truthy_length_nonempty in Hrepos.
  unfold createReferenceDetector. rewrite Hrepos, Htoken. reflexivity.
Qed.

(** X13. [createReferenceDetector] returns whenever the token is there if
    needed and the detector calls it makes resolve. *)
Lemma createReferenceDetector_returns
  (env : GraphEnv.t) (cached : CachedProject) (w : World) :
  (Project.repoIds (project cached) = [] \/
   GraphEnv.githubToken env <> None) ->
  (forall repos token c w0, exists w1 d,
     GithubLoader.referenceDetector (github loaders) repos token c w0 =
       (w1, returns d)) ->
  (forall server c w0, exists w1 d,
     DiscourseLoader.referenceDetector (discourse loaders) server c w0 =
       (w1, returns d)) ->
  exists w' detector,
    createReferenceDetector loaders env cached w = (w', returns detector).
Proof.
  intros Hcheck Hgithub Hdiscourse. unfold createReferenceDetector.
  step_async.
  destruct (Project.repoIds (project cached)) as [|r rs]; simpl.
  - destruct (Project.discourseServer (project cached)) as [|server].
    + eexists; eexists; reflexivity.
    + destruct (Hdiscourse server (cache cached) w) as (w1 & d & ->).
      eexists; eexists; reflexivity.
  - destruct (GraphEnv.githubToken env) as [token|];
      [| destruct Hcheck as [H | H]; [discriminate H | contradiction]].
    destruct (Hgithub (r :: rs) token (cache cached) w) as (w1 & d & ->).
    simpl.
    destruct (Project.discourseServer (project cached)) as [|server].
    + eexists; eexists; reflexivity.
    + destruct (Hdiscourse server (cache cached) w1) as (w2 & d2 & ->).
      eexists; eexists; reflexivity.
Qed.

End WithExternals.

(** *** Runs in the concrete world *)
Import Fixture.

Lemma declarations_order_witness :
  declarations loaders identitiesOnly = ["identity"] /\
  In "identity" (declarations loaders identitiesOnly) /\
  updateMirror loaders noToken identitiesOnly emptyWorld =
    (emptyWorld,
     returns {| project := identitiesOnly;
                cache := tt;
                loadedInitiativesDir := None |}).
Proof.
  destruct (declarations_order loaders identitiesOnly)
    as (Horder & Hidentity & Hmirror).
  split; [exact Horder |]. split.
  - apply Hidentity. discriminate.
  - apply (Hmirror eq_refl eq_refl eq_refl noToken emptyWorld).
Defined.

Example declarations_fullProject :
  declarations loaders fullProject =
    ["github"; "discourse"; "identity"; "initiatives"].
Proof. reflexivity. Qed.

(** C2 as stated fails: with a forum server configured, the forum mirror
    update has already been started when the missing token is reported,
    and both mirror updates have been started when the missing
    initiatives directory is reported. *)
Lemma updateMirror_error_after_forum_mirror_started :
  (Project.repoIds fullProject <> [] /\
   MirrorEnv.githubToken noToken = None /\
   fails (snd (updateMirror loaders noToken fullProject emptyWorld)) /\
   started (fst (updateMirror loaders noToken fullProject emptyWorld)) =
     ["discourse.updateMirror"] /\
   fst (updateMirror loaders noToken fullProject emptyWorld) <> emptyWorld) /\
  (truthy_initiatives (Project.initiatives fullProject) <> None /\
   MirrorEnv.initiativesDirectory noDirectory = None /\
   fails (snd (updateMirror loaders noDirectory fullProject emptyWorld)) /\
   started (fst (updateMirror loaders noDirectory fullProject emptyWorld)) =
     ["discourse.updateMirror"; "github.updateMirror"] /\
   fst (updateMirror loaders noDirectory fullProject emptyWorld)
     <> emptyWorld).
Proof.
  split.
  - split; [discriminate |]. split; [reflexivity |].
    split; [eexists; reflexivity |]. split; [reflexivity | discriminate].
  - split; [discriminate |]. split; [reflexivity |].
    split; [eexists; reflexivity |]. split; [reflexivity | discriminate].
Qed.

Lemma updateMirror_configuration_errors_witness :
  (updateMirror loaders noToken fullProject emptyWorld =
     (start "discourse.updateMirror" emptyWorld,
      throw (JsError "Tried to load GitHub, but no GitHub token set")) /\
   updateMirror loaders noToken noForum emptyWorld =
     (emptyWorld,
      throw (JsError "Tried to load GitHub, but no GitHub token set"))) /\
  updateMirror loaders noDirectory fullProject emptyWorld =
    (start "github.updateMirror" (start "discourse.updateMirror" emptyWorld),
     throw (JsError
       "Tried to load Initiatives, but no $INITIATIVES_DIRECTORY set")).
Proof.
  split; [split |].
  - apply (proj1 (updateMirror_configuration_errors
                    loaders noToken fullProject emptyWorld)).
    + discriminate.
    + reflexivity.
  - apply (proj1 (updateMirror_configuration_errors
                    loaders noToken noForum emptyWorld)).
    + discriminate.
    + reflexivity.
  - apply (proj2 (updateMirror_configuration_errors
                    loaders noDirectory fullProject emptyWorld)).
    + discriminate.
    + reflexivity.
    + right; discriminate.
Defined.

Lemma contractPluginGraphs_no_identities_witness :
  contractPluginGraphs loaders (pluginGraphs noIdentities) twoGraphs =
    merge [0; 1]%nat twoGraphs.
Proof.
  apply (contractPluginGraphs_no_identities
           loaders (pluginGraphs noIdentities) twoGraphs).
  reflexivity.
Defined.

(** Without identities the merged object (reference 2) is returned and
    the heap holds the two inputs and it; with identities the contraction
    allocates a further object and returns that one. *)
Example contractPluginGraphs_runs :
  contractPluginGraphs loaders (pluginGraphs noIdentities) twoGraphs =
    ({| started := [];
        heap := [["github/repo"]; ["discourse/topic"];
                 ["github/repo"; "discourse/topic"]] |},
     returns 2%nat) /\
  contractPluginGraphs loaders (pluginGraphs fullProject) twoGraphs =
    ({| started := ["identity.contractIdentities"];
        heap := [["github/repo"]; ["discourse/topic"];
                 ["github/repo"; "discourse/topic"];
                 ["github/repo"; "discourse/topic"]] |},
     returns 3%nat).
Proof. split; reflexivity. Qed.

Lemma createReferenceDetector_cascade_witness :
  createReferenceDetector loaders graphEnv (cached fullProject) emptyWorld =
    (start "discourse.referenceDetector"
       (start "github.referenceDetector" emptyWorld),
     returns (CascadingReferenceDetector
                [githubDetector; discourseDetector; initiativeDetector])) /\
  exists gh dc ini : option ReferenceDetector,
    CascadingReferenceDetector
      [githubDetector; discourseDetector; initiativeDetector] =
    CascadingReferenceDetector
      (children gh ++ children dc ++ children ini) /\
    addressFromUrl
      (CascadingReferenceDetector
         [githubDetector; discourseDetector; initiativeDetector]) "shared" =
    orElse (answer gh "shared")
           (orElse (answer dc "shared") (answer ini "shared")).
Proof.
  split; [reflexivity |].
  destruct (createReferenceDetector_cascade
              loaders graphEnv (cached fullProject) emptyWorld _ _ eq_refl)
    as (gh & dc & ini & Hshape & _ & _ & _ & _ & _ & _ & Hfirst).
  exists gh, dc, ini. split; [exact Hshape | apply Hfirst].
Defined.

(** All three fixture detectors claim ["shared"]: code-hosting wins when
    it is a child, the forum wins when code-hosting is not configured. *)
Example cascade_first_registered_wins :
  addressFromUrl
    (CascadingReferenceDetector
       [githubDetector; discourseDetector; initiativeDetector]) "shared" =
    Some ["github"; "repo"] /\
  addressFromUrl
    (CascadingReferenceDetector [discourseDetector; initiativeDetector])
    "shared" = Some ["discourse"; "topic"] /\
  addressFromUrl
    (CascadingReferenceDetector
       [githubDetector; discourseDetector; initiativeDetector])
    "initiative-1" = Some ["initiatives"; "initiative"].
Proof. repeat split; reflexivity. Qed.

End PluginLoadersProperties.

(** ** The distribution normaliser *)
Module DistributionToCredProperties.
Import NodeAddress DistributionToCred.
Local Open Scope Q_scope.

Lemma sum_scaled (weight mass : Q) (f : nat -> Q) (indices : list nat) :
  ~ mass == 0 ->
  sum (map (fun j => weight * f j / mass) indices) ==
  weight * sum (map f indices) / mass.
Proof.
  intros Hmass. induction indices as [|j rest IH]; simpl.
  - field. exact Hmass.
  - rewrite IH. field. exact Hmass.
Qed.

Lemma nth_map_seq (f : nat -> Q) (n j : nat) :
  (j < n)%nat -> nth j (map f (seq 0 n)) 0 = f j.
Proof.
  intros Hj.
  rewrite (nth_indep _ 0 (f 0%nat)) by (rewrite length_map, length_seq; exact Hj).
  rewrite map_nth, seq_nth by exact Hj. reflexivity.
Qed.

Lemma scoringNodeIndices_bound (nodeOrder scoring : list NodeAddressT)
  (j : nat) :
  In j (scoringNodeIndices nodeOrder scoring) ->
  (j < length nodeOrder)%nat.
Proof.
  unfold scoringNodeIndices. intros Hin.
  apply filter_In in Hin as [Hseq _]. apply in_seq in Hseq. lia.
Qed.

Lemma nth_intervalCredScores (ds : list TimelineDistribution)
  (nodeOrder scoring : list NodeAddressT) (i : nat)
  (d : TimelineDistribution) :
  nth_error ds i = Some d ->
  nth i (intervalCredScores (distributionToCred ds nodeOrder scoring)) [] =
    intervalCred nodeOrder scoring d.
Proof.
  intros Hd. apply nth_error_nth. simpl. apply map_nth_error. exact Hd.
Qed.

(** The normaliser's law in exact arithmetic.  In an interval whose
    scoring mass is positive, the cred vector has one entry per node of
    [nodeOrder], the cred of every node [j], scoring or not, is
    [intervalWeight * distribution[j] / scoringMass], and the cred of the
    scoring nodes adds up to [intervalWeight]. *)
Theorem positive_mass_exact_arithmetic
  (ds : list TimelineDistribution) (nodeOrder scoring : list NodeAddressT)
  (i : nat) (d : TimelineDistribution) :
  nth_error ds i = Some d ->
  0 < scoringMass nodeOrder scoring (distribution d) ->
  length (nth i (intervalCredScores
                   (distributionToCred ds nodeOrder scoring)) []) =
    length nodeOrder /\
  (forall j : nat, (j < length nodeOrder)%nat ->
     credAt (distributionToCred ds nodeOrder scoring) i j =
       intervalWeight d * nth j (distribution d) 0 /
       scoringMass nodeOrder scoring (distribution d)) /\
  sum (map (credAt (distributionToCred ds nodeOrder scoring) i)
           (scoringNodeIndices nodeOrder scoring)) ==
    intervalWeight d.
Proof.
  intros Hd Hmass.
  assert (Hne : ~ scoringMass nodeOrder scoring (distribution d) == 0).
  { intros Hzero. rewrite Hzero in Hmass. discriminate Hmass. }
  assert (Hbranch :
    Qeq_bool (scoringMass nodeOrder scoring (distribution d)) 0 = false).
  { destruct (Qeq_bool _ 0) eqn:Hb; [| reflexivity].
    apply Qeq_bool_iff in Hb. contradiction. }
  assert (Hcred : forall j : nat, (j < length nodeOrder)%nat ->
     credAt (distributionToCred ds nodeOrder scoring) i j =
       intervalWeight d * nth j (distribution d) 0 /
       scoringMass nodeOrder scoring (distribution d)).
  { intros j Hj. unfold credAt.
    rewrite (nth_intervalCredScores _ _ _ _ _ Hd). unfold intervalCred.
    rewrite nth_map_seq by exact Hj. rewrite Hbranch. reflexivity. }
  split; [| split].
  - rewrite (nth_intervalCredScores _ _ _ _ _ Hd). unfold intervalCred.
    rewrite length_map, length_seq. reflexivity.
  - exact Hcred.
  - rewrite (map_ext_in _
      (fun j => intervalWeight d * nth j (distribution d) 0 /
                scoringMass nodeOrder scoring (distribution d))).
    + rewrite sum_scaled by exact Hne.
      fold (scoringMass nodeOrder scoring (distribution d)).
      field. exact Hne.
    + intros j Hin. apply Hcred.
      apply (scoringNodeIndices_bound _ _ _ Hin).
Qed.

Lemma map_constant (A : Type) (c : Q) (xs : list A) :
  map (fun _ => c) xs = repeat c (length xs).
Proof.
  induction xs as [|x rest IH]; simpl; [reflexivity | rewrite IH; reflexivity].
Qed.

(** C3. In an interval whose scoring mass is zero, the cred vector is
    there (the function is total: nothing is thrown) and holds [0] for
    every node of [nodeOrder], whatever mass the distribution puts on
    nodes that are not scoring. *)
Theorem distributionToCred_zero_mass
  (ds : list TimelineDistribution) (nodeOrder scoring : list NodeAddressT)
  (i : nat) (d : TimelineDistribution) :
  nth_error ds i = Some d ->
  scoringMass nodeOrder scoring (distribution d) == 0 ->
  nth_error (intervalCredScores (distributionToCred ds nodeOrder scoring)) i =
    Some (repeat 0 (length nodeOrder)).
Proof.
  intros Hd Hzero. simpl.
  rewrite (map_nth_error _ _ _ Hd). f_equal. unfold intervalCred.
  apply Qeq_bool_iff in Hzero. rewrite Hzero.
  rewrite map_constant, length_seq. reflexivity.
Qed.

Lemma hasPrefix_empty (address : NodeAddressT) :
  hasPrefix address empty = true.
Proof. destruct address; reflexivity. Qed.

Lemma scoringNodeIndices_covering (nodeOrder scoring : list NodeAddressT) :
  (forall address, In address nodeOrder -> isScoring scoring address = true) ->
  scoringNodeIndices nodeOrder scoring = seq 0 (length nodeOrder).
Proof.
  intros Hcover. unfold scoringNodeIndices.
  rewrite (filter_ext_in _ (fun _ => true)).
  - induction (seq 0 (length nodeOrder)) as [|j rest IH]; simpl;
      [reflexivity | rewrite IH; reflexivity].
  - intros j Hin. apply in_seq in Hin.
    destruct (nth_error nodeOrder j) as [address|] eqn:Hnth.
    + apply Hcover. apply (nth_error_In _ _ Hnth).
    + apply nth_error_None in Hnth. lia.
Qed.

(** C9. When every node of [nodeOrder] matches some prefix of the scoring
    set, the result is the result for the scoring set that holds only the
    empty address, which matches every node. *)
Theorem distributionToCred_covering_prefixes
  (ds : list TimelineDistribution) (nodeOrder scoring : list NodeAddressT) :
  (forall address : NodeAddressT,
     In address nodeOrder -> isScoring scoring address = true) ->
  distributionToCred ds nodeOrder scoring =
    distributionToCred ds nodeOrder [empty].
Proof.
  intros Hcover. unfold distributionToCred. f_equal.
  apply map_ext. intros d. unfold intervalCred, scoringMass.
  rewrite (scoringNodeIndices_covering _ _ Hcover).
  rewrite (scoringNodeIndices_covering nodeOrder [empty]); [reflexivity |].
  intros address _. unfold isScoring. simpl.
  rewrite hasPrefix_empty. reflexivity.
Qed.

(** No intervals in, no intervals out. *)
Lemma distributionToCred_empty (nodeOrder scoring : list NodeAddressT) :
  distributionToCred [] nodeOrder scoring =
    {| intervals := []; intervalCredScores := [] |}.
Proof. reflexivity. Qed.

(** Interval order and boundaries are kept. *)
Lemma distributionToCred_intervals (ds : list TimelineDistribution)
  (nodeOrder scoring : list NodeAddressT) :
  intervals (distributionToCred ds nodeOrder scoring) = map interval ds /\
  length (intervalCredScores (distributionToCred ds nodeOrder scoring)) =
    length ds.
Proof. split; [reflexivity | apply length_map]. Qed.

(** *** The scenarios of the test file *)
Local Open Scope string_scope.

Example some_nodes_scoring :
  map (map Qred)
      (intervalCredScores
         (distributionToCred test_ds test_nodeOrder [na ["bar"]])) =
    [[2; 2]; [90; 10]].
Proof. reflexivity. Qed.

Example all_nodes_scoring :
  map (map Qred)
      (intervalCredScores
         (distributionToCred test_ds test_nodeOrder [empty])) =
    [[1; 1]; [9; 1]] /\
  map (map Qred)
      (intervalCredScores
         (distributionToCred test_ds test_nodeOrder
            [na ["foo"]; na ["bar"]])) =
    [[1; 1]; [9; 1]].
Proof. split; reflexivity. Qed.

Example no_nodes_scoring :
  intervalCredScores (distributionToCred test_ds test_nodeOrder []) =
    [[0; 0]; [0; 0]] /\
  intervalCredScores
    (distributionToCred test_zero_ds test_nodeOrder [na ["bar"]]) =
    [[0; 0]].
Proof. split; reflexivity. Qed.

Lemma positive_mass_exact_arithmetic_run :
  credAt (distributionToCred test_ds test_nodeOrder [na ["bar"]]) 1 0 ==
    90 /\
  sum (map (credAt (distributionToCred test_ds test_nodeOrder [na ["bar"]]) 1)
           (scoringNodeIndices test_nodeOrder [na ["bar"]])) == 10.
Proof.
  destruct (positive_mass_exact_arithmetic
              test_ds test_nodeOrder [na ["bar"]] 1
              {| interval := {| startTimeMs := 10; endTimeMs := 20 |};
                 intervalWeight := 10;
                 distribution := [9 # 10; 1 # 10] |}
              eq_refl eq_refl)
    as (_ & Hcred & Hsum).
  split.
  - rewrite (Hcred 0%nat) by (simpl; lia). reflexivity.
  - exact Hsum.
Defined.

Lemma distributionToCred_zero_mass_witness :
  nth_error
    (intervalCredScores
       (distributionToCred test_zero_ds test_nodeOrder [na ["bar"]])) 0 =
    Some [0; 0].
Proof.
  apply (distributionToCred_zero_mass
           test_zero_ds test_nodeOrder [na ["bar"]] 0
           {| interval := {| startTimeMs := 0; endTimeMs := 10 |};
              intervalWeight := 2;
              distribution := [1; 0] |}).
  - reflexivity.
  - reflexivity.
Defined.

Lemma distributionToCred_covering_prefixes_witness :
  distributionToCred test_ds test_nodeOrder [na ["foo"]; na ["bar"]] =
    distributionToCred test_ds test_nodeOrder [empty].
Proof.
  apply (distributionToCred_covering_prefixes
           test_ds test_nodeOrder [na ["foo"]; na ["bar"]]).
  intros address [<- | [<- | []]]; reflexivity.
Defined.

End DistributionToCredProperties.

(** * Further properties *)

(** ** Projects: construction and migration *)
Module ProjectExtras.
Import Compat Project ProjectShapes.
Local Open Scope string_scope.

Section WithExternals.
Context {E : Externals}.

(** X1. Given a complete project with a non-empty [id] and an
    [initiatives] property, [createProject] has no default to fill in
    and returns that project. *)
Theorem createProject_complete (p : Project) :
  id p <> "" ->
  hasInitiatives p = true ->
  createProject (asShape p) = returns p.
Proof.
  intros Hid Hinit. unfold createProject, asShape. simpl.
  apply ProjectProperties.truthy_string_nonempty in Hid. rewrite Hid. simpl.
  destruct p as [i ini repos server ids]. simpl in *.
  unfold hasInitiatives in Hinit. simpl in Hinit.
  destruct ini as [|v]; [discriminate Hinit | reflexivity].
Qed.

(** X2. Whatever [createProject] returns has a non-empty [id] and an
    [initiatives] property, and creating a project from it again returns
    it unchanged. *)
Theorem createProject_idempotent (s : ProjectShape) (q : Project) :
  createProject s = returns q ->
  id q <> "" /\
  hasInitiatives q = true /\
  createProject (asShape q) = returns q.
Proof.
  unfold createProject. intros Hcreate.
  destruct (shape_id s) as [|i]; [discriminate Hcreate |].
  destruct (truthy_string i) eqn:Hi; simpl in Hcreate;
    [| discriminate Hcreate].
  injection Hcreate as <-.
  assert (Hid : i <> "").
  { apply ProjectProperties.truthy_string_nonempty. exact Hi. }
  split; [exact Hid |]. split; [reflexivity |].
  unfold asShape. simpl. rewrite Hi. reflexivity.
Qed.

(** X3. A migrated legacy payload is a fixed point of every migration in
    the table: upgrading twice, by whichever entries, is upgrading
    once. *)
Theorem upgraded_is_fixed_point (tag tag' : string) (p : Project)
  (upgrade upgrade' : Project -> Project) :
  legacyShape tag p = true ->
  lookup tag upgrades = Some upgrade ->
  lookup tag' upgrades = Some upgrade' ->
  upgrade' (upgrade p) = upgrade p.
Proof.
  intros Hshape Hfirst Hsecond.
  assert (Hsecond' : upgrade' = upgradeFrom030 \/ upgrade' = upgradeFrom040).
  { unfold upgrades in Hsecond. cbn [lookup] in Hsecond.
    destruct (String.eqb "0.3.0" tag');
      [left; injection Hsecond as <-; reflexivity |].
    destruct (String.eqb "0.3.1" tag');
      [left; injection Hsecond as <-; reflexivity |].
    destruct (String.eqb "0.4.0" tag');
      [right; injection Hsecond as <-; reflexivity | discriminate]. }
  destruct (ProjectProperties.legacyShape_tag _ _ Hshape) as [-> | [-> | ->]];
    simpl in Hfirst; injection Hfirst as <-.
  - destruct Hsecond' as [-> | ->]; unfold upgradeFrom030, upgradeFrom040;
      simpl; destruct (discourseServer p); reflexivity.
  - destruct Hsecond' as [-> | ->]; unfold upgradeFrom030, upgradeFrom040;
      simpl; destruct (discourseServer p); reflexivity.
  - unfold legacyShape, ProjectV040 in Hshape. simpl in Hshape.
    apply andb_prop in Hshape as [_ Hserver].
    destruct Hsecond' as [-> | ->]; unfold upgradeFrom030, upgradeFrom040;
      simpl; [| reflexivity].
    rewrite <- (ProjectProperties.serverV050_normal _ Hserver). reflexivity.
Qed.

(** X4. On a payload whose forum server carries no [apiUsername] (or is
    [null]) the 0.3.x migration and the 0.4.0 migration agree. *)
Theorem upgradeFrom030_without_apiUsername (p : Project) :
  serverV050 (discourseServer p) = true ->
  upgradeFrom030 p = upgradeFrom040 p.
Proof.
  intros Hserver. unfold upgradeFrom030, upgradeFrom040. simpl.
  rewrite <- (ProjectProperties.serverV050_normal _ Hserver). reflexivity.
Qed.

End WithExternals.

Import Fixture FixtureImports.

Lemma createProject_complete_witness :
  createProject (asShape fullProject) = returns fullProject.
Proof.
  apply (createProject_complete fullProject); [discriminate | reflexivity].
Defined.

Lemma createProject_idempotent_witness :
  id defaultProject <> "" /\
  hasInitiatives defaultProject = true /\
  createProject (asShape defaultProject) = returns defaultProject.
Proof.
  apply (createProject_idempotent idOnly defaultProject).
  reflexivity.
Defined.

Lemma upgraded_is_fixed_point_witness :
  upgradeFrom040 (upgradeFrom030 fixtureV030) = upgradeFrom030 fixtureV030.
Proof.
  apply (upgraded_is_fixed_point "0.3.0" "0.4.0" fixtureV030
           upgradeFrom030 upgradeFrom040); reflexivity.
Defined.

Lemma upgradeFrom030_without_apiUsername_witness :
  upgradeFrom030 fullProject = upgradeFrom040 fullProject.
Proof.
  apply (upgradeFrom030_without_apiUsername fullProject). reflexivity.
Defined.

End ProjectExtras.

(** ** The orchestrator: the stages the claims leave out *)
Module PluginLoadersExtras.
Import Async References PluginLoaders GraphStages.
Import PluginLoadersProperties.
Local Open Scope string_scope.
Local Open Scope list_scope.

(** Case analysis on every loader call left in the goal. *)
Ltac destruct_launches :=
  repeat match goal with
  | |- context [DiscourseLoader.updateMirror ?a ?b ?c ?d ?e] =>
      destruct (DiscourseLoader.updateMirror a b c d e)
        as [? [?|[]]] eqn:?; simpl
  | |- context [GithubLoader.updateMirror ?a ?b ?c ?d ?e ?f] =>
      destruct (GithubLoader.updateMirror a b c d e f)
        as [? [?|[]]] eqn:?; simpl
  | |- context [InitiativesLoader.loadDirectory ?a ?b ?c ?d] =>
      destruct (InitiativesLoader.loadDirectory a b c d)
        as [? [?|?]] eqn:?; simpl
  | |- context [DiscourseLoader.createGraph ?a ?b ?c ?d] =>
      destruct (DiscourseLoader.createGraph a b c d)
        as [? [?|?]] eqn:?; simpl
  | |- context [GithubLoader.createGraph ?a ?b ?c ?d ?e] =>
      destruct (GithubLoader.createGraph a b c d e)
        as [? [?|?]] eqn:?; simpl
  | |- context [InitiativesLoader.createGraph ?a ?b ?c ?d] =>
      destruct (InitiativesLoader.createGraph a b c d)
        as [? [?|?]] eqn:?; simpl
  end.

Ltac rewrite_launches :=
  repeat match goal with
  | H : ?x = (_, _) |- context [?x] => rewrite H
  end.

Section WithExternals.
Context {E : Externals}.
Variable loaders : PluginLoaders.

(** X5. [updateMirror] returns only when every mirror update it launched
    was fulfilled and, if the initiatives are set, the directory was
    loaded; the cached project then holds the project, the cache of the
    environment and the loaded directory, and nothing ran after the
    last launch. *)
Theorem updateMirror_returns
  (env : MirrorEnv.t) (p : Project.Project) (w w' : World)
  (cached : CachedProject) :
  updateMirror loaders env p w = (w', returns cached) ->
  project cached = p /\
  cache cached = MirrorEnv.cache env /\
  (forall server, Project.discourseServer p = obj server ->
     snd (DiscourseLoader.updateMirror (discourse loaders) server
            (MirrorEnv.cache env) (MirrorEnv.reporter env) w) = returns tt) /\
  (Project.repoIds p <> [] ->
     exists token,
       MirrorEnv.githubToken env = Some token /\
       snd (GithubLoader.updateMirror (github loaders) (Project.repoIds p)
              token (MirrorEnv.cache env) (MirrorEnv.reporter env)
              (afterDiscourseMirror loaders env p w)) = returns tt) /\
  match truthy_initiatives (Project.initiatives p) with
  | None =>
      loadedInitiativesDir cached = None /\
      w' = afterGithubMirror loaders env p
             (afterDiscourseMirror loaders env p w)
  | Some options =>
      exists dir loaded,
        truthy_directory (MirrorEnv.initiativesDirectory env) = Some dir /\
        loadedInitiativesDir cached = Some loaded /\
        InitiativesLoader.loadDirectory (initiatives loaders)
          {| InitiativesDirectory.localPath := dir;
             InitiativesDirectory.remoteUrl := Project.remoteUrl options |}
          (MirrorEnv.reporter env)
          (afterGithubMirror loaders env p
             (afterDiscourseMirror loaders env p w)) = (w', returns loaded)
  end.
Proof.
  unfold updateMirror, afterGithubMirror, afterDiscourseMirror.
  step_async.
  destruct (Project.discourseServer p) as [|server]; simpl;
    destruct (Project.repoIds p) as [|r rs]; simpl;
    destruct (MirrorEnv.githubToken env) as [token|]; simpl;
    destruct (truthy_initiatives (Project.initiatives p)) as [options|]; simpl;
    destruct (truthy_directory (MirrorEnv.initiativesDirectory env)) as [dir|];
    simpl; destruct_launches;
    intros H; try discriminate H; injection H as <- <-; simpl.
  all: repeat split; try reflexivity; try discriminate;
    try (intros ? [= <-]);
    try (intros Hc; exfalso; apply Hc; reflexivity);
    try (intros _; eexists; split; [reflexivity |]);
    try (eexists; eexists; split; [reflexivity |]; split; [reflexivity |]);
    rewrite_launches; try reflexivity.
Qed.

(** X6. When the directory load is rejected, [updateMirror] is rejected
    with that very exception as soon as the load settles: the mirror
    updates launched before it are never awaited, so their outcome does
    not show. *)
Theorem updateMirror_load_rejected
  (env : MirrorEnv.t) (p : Project.Project) (w w' : World)
  (options : Project.Initiatives) (dir : string) (e : Exception) :
  truthy_initiatives (Project.initiatives p) = Some options ->
  truthy_directory (MirrorEnv.initiativesDirectory env) = Some dir ->
  Project.repoIds p = [] \/ MirrorEnv.githubToken env <> None ->
  InitiativesLoader.loadDirectory (initiatives loaders)
    {| InitiativesDirectory.localPath := dir;
       InitiativesDirectory.remoteUrl := Project.remoteUrl options |}
    (MirrorEnv.reporter env)
    (afterGithubMirror loaders env p
       (afterDiscourseMirror loaders env p w)) = (w', throw e) ->
  updateMirror loaders env p w = (w', throw e).
Proof.
  unfold updateMirror, afterGithubMirror, afterDiscourseMirror.
  intros -> -> Hcheck. step_async.
  destruct (Project.discourseServer p) as [|server]; simpl;
    destruct (Project.repoIds p) as [|r rs]; simpl;
    destruct (MirrorEnv.githubToken env) as [token|]; simpl;
    try (destruct Hcheck as [Hc | Hc]; [discriminate Hc | contradiction]);
    repeat match goal with
    | |- context [DiscourseLoader.updateMirror ?a ?b ?c ?d ?e] =>
        destruct (DiscourseLoader.updateMirror a b c d e) as [? ?]; simpl
    | |- context [GithubLoader.updateMirror ?a ?b ?c ?d ?e ?f] =>
        destruct (GithubLoader.updateMirror a b c d e f) as [? ?]; simpl
    end;
    intros Hload; rewrite Hload; reflexivity.
Qed.

(** X7. Without a token for a non-empty repository list,
    [createPluginGraphs] throws its configuration error with nothing
    launched but the forum graph construction, and that only if the
    project has a forum server. *)
Theorem createPluginGraphs_missing_token
  (env : GraphEnv.t) (cached : CachedProject)
  (referenceDetector : ReferenceDetector) (w : World) :
  Project.repoIds (project cached) <> [] ->
  GraphEnv.githubToken env = None ->
  createPluginGraphs loaders env cached referenceDetector w =
    (afterDiscourseGraph loaders cached w,
     throw (JsError "Tried to load GitHub, but no GitHub token set")).
Proof.
  intros Hrepos Htoken. apply truthy_length_nonempty in Hrepos.
  unfold createPluginGraphs, afterDiscourseGraph.
  rewrite Hrepos, Htoken. step_async.
  destruct (Project.discourseServer (project cached)) as [|server];
    [reflexivity |].
  destruct (DiscourseLoader.createGraph _ _ _ _); reflexivity.
Qed.

(** X8. Whenever [createPluginGraphs] returns, it hands back the cached
    project it was given and the graphs in the order forum, code-hosting,
    initiatives, one for each source that applies and none for a source
    that does not; each graph is what that source's construction was
    fulfilled with. *)
Theorem createPluginGraphs_order
  (env : GraphEnv.t) (cached : CachedProject)
  (referenceDetector : ReferenceDetector) (w w' : World)
  (pluginGraphs : PluginGraphs) :
  createPluginGraphs loaders env cached referenceDetector w =
    (w', returns pluginGraphs) ->
  cachedProject pluginGraphs = cached /\
  exists dc gh ini : option WeightedGraphT,
    graphs pluginGraphs = optionList dc ++ optionList gh ++ optionList ini /\
    (dc = None <-> Project.discourseServer (project cached) = null) /\
    (gh = None <-> Project.repoIds (project cached) = []) /\
    (ini = None <-> loadedInitiativesDir cached = None) /\
    (forall g, dc = Some g ->
       exists server,
         Project.discourseServer (project cached) = obj server /\
         snd (DiscourseLoader.createGraph (discourse loaders) server
                (cache cached) w) = returns g) /\
    (forall g, gh = Some g ->
       exists token,
         GraphEnv.githubToken env = Some token /\
         snd (GithubLoader.createGraph (github loaders)
                (Project.repoIds (project cached)) token (cache cached)
                (afterDiscourseGraph loaders cached w)) = returns g) /\
    (forall g, ini = Some g ->
       exists loaded w2,
         loadedInitiativesDir cached = Some loaded /\
         InitiativesLoader.createGraph (initiatives loaders)
           (InitiativesDirectory.initiatives loaded) referenceDetector w2 =
           (w', returns g)).
Proof.
  unfold createPluginGraphs, afterDiscourseGraph. step_async.
  destruct cached as [loadedDir cacheProvider p]. simpl.
  destruct (Project.discourseServer p) as [|server]; simpl;
    destruct (Project.repoIds p) as [|r rs]; simpl;
    destruct (GraphEnv.githubToken env) as [token|]; simpl;
    destruct loadedDir as [loaded|]; simpl; destruct_launches;
    intros H; try discriminate H; injection H as <- <-; simpl;
    (split; [reflexivity |]).
  all: match goal with
       | |- exists dc gh ini, ?gs = _ /\ _ =>
           match gs with
           | [] => exists None, None, None
           | [?a] =>
               first
                 [ match goal with
                   | H : DiscourseLoader.createGraph _ _ _ _ = (_, inr a)
                     |- _ => exists (Some a), None, None
                   end
                 | match goal with
                   | H : GithubLoader.createGraph _ _ _ _ _ = (_, inr a)
                     |- _ => exists None, (Some a), None
                   end
                 | exists None, None, (Some a) ]
           | [?a; ?b] =>
               first
                 [ match goal with
                   | H : InitiativesLoader.createGraph _ _ _ _ = (_, inr b),
                     H' : DiscourseLoader.createGraph _ _ _ _ = (_, inr a)
                     |- _ => exists (Some a), None, (Some b)
                   end
                 | match goal with
                   | H : InitiativesLoader.createGraph _ _ _ _ = (_, inr b)
                     |- _ => exists None, (Some a), (Some b)
                   end
                 | exists (Some a), (Some b), None ]
           | [?a; ?b; ?c] => exists (Some a), (Some b), (Some c)
           end
       end.
  all: simpl; repeat split; try reflexivity; try discriminate;
    try (intros ? [= <-]);
    try (eexists; split; [reflexivity |]);
    try (eexists; eexists; split; [reflexivity |]);
    rewrite_launches; try reflexivity; try eassumption.
Qed.

(** X9. When the merge throws, [contractPluginGraphs] throws the same
    exception and leaves the world as the merge left it, identities or
    not: no contraction is attempted on a failed merge. *)
Theorem contractPluginGraphs_merge_throws
  (pluginGraphs : PluginGraphs) (w w' : World) (e : Exception) :
  WeightedGraph_merge (graphs pluginGraphs) w = (w', throw e) ->
  contractPluginGraphs loaders pluginGraphs w = (w', throw e).
Proof.
  intros Hmerge. unfold contractPluginGraphs. step_async.
  rewrite Hmerge. reflexivity.
Qed.

(** X10. A project created from nothing but an identifier switches no
    plugin on: it has no declarations, mirroring it launches nothing,
    its reference detector is the empty cascade, which matches no token,
    no graph is built for it, and contracting is merging no graphs. *)
Theorem default_project_pipeline
  (i : Project.ProjectId) (mirrorEnv : MirrorEnv.t) (graphEnv : GraphEnv.t)
  (detector : ReferenceDetector) (w : World) :
  i <> "" ->
  exists q : Project.Project,
    Project.createProject (ProjectShapes.onlyId i) = returns q /\
    declarations loaders q = [] /\
    updateMirror loaders mirrorEnv q w =
      (w, returns (plainCached mirrorEnv q)) /\
    createReferenceDetector loaders graphEnv (plainCached mirrorEnv q) w =
      (w, returns (CascadingReferenceDetector [])) /\
    (forall url, addressFromUrl (CascadingReferenceDetector []) url = None) /\
    createPluginGraphs loaders graphEnv (plainCached mirrorEnv q) detector w =
      (w, returns {| graphs := [];
                     cachedProject := plainCached mirrorEnv q |}) /\
    contractPluginGraphs loaders
      {| graphs := []; cachedProject := plainCached mirrorEnv q |} w =
      WeightedGraph_merge [] w.
Proof.
  intros Hid. apply ProjectProperties.truthy_string_nonempty in Hid.
  unfold Project.createProject, ProjectShapes.onlyId. simpl.
  rewrite Hid. simpl. eexists. split; [reflexivity |].
  repeat split.
  unfold contractPluginGraphs. step_async.
  destruct (WeightedGraph_merge [] w) as [w1 [e|g]]; reflexivity.
Qed.

End WithExternals.

(** *** Runs in the concrete world *)
Import Fixture FixtureImports.

Lemma updateMirror_returns_witness :
  updateMirror loaders mirrorEnv fullProject emptyWorld =
    (start "initiatives.loadDirectory"
       (start "github.updateMirror"
          (start "discourse.updateMirror" emptyWorld)),
     returns (cached fullProject)) /\
  project (cached fullProject) = fullProject /\
  snd (DiscourseLoader.updateMirror (discourse loaders) forum tt tt
         emptyWorld) = returns tt.
Proof.
  split; [reflexivity |].
  destruct (updateMirror_returns loaders mirrorEnv fullProject emptyWorld
              _ _ eq_refl) as (Hproject & _ & Hforum & _).
  split; [exact Hproject | exact (Hforum forum eq_refl)].
Defined.

Lemma updateMirror_load_rejected_witness :
  updateMirror realLoaders missingDirectory fullProject emptyWorld =
    (start "_loadDirectory"
       (start "start initiatives"
          (start "github.updateMirror"
             (start "discourse.updateMirror" emptyWorld))),
     throw (JsError "no such directory")).
Proof.
  eapply (updateMirror_load_rejected realLoaders missingDirectory
            fullProject emptyWorld).
  - reflexivity.
  - reflexivity.
  - right; discriminate.
  - reflexivity.
Defined.

Lemma createPluginGraphs_missing_token_witness :
  createPluginGraphs loaders noTokenGraphEnv (cached fullProject)
    githubDetector emptyWorld =
    ({| started := ["discourse.createGraph"];
        heap := [["discourse/topic"]] |},
     throw (JsError "Tried to load GitHub, but no GitHub token set")).
Proof.
  apply (createPluginGraphs_missing_token loaders noTokenGraphEnv
           (cached fullProject) githubDetector emptyWorld).
  - discriminate.
  - reflexivity.
Defined.

Lemma createPluginGraphs_order_witness :
  createPluginGraphs loaders graphEnv (cached fullProject) githubDetector
    emptyWorld =
    ({| started := ["discourse.createGraph"; "github.createGraph";
                    "initiatives.createGraph"];
        heap := [["discourse/topic"]; ["github/repo"];
                 ["initiatives/1"]] |},
     returns {| graphs := [0; 1; 2]%nat;
                cachedProject := cached fullProject |}) /\
  exists dc gh ini : option nat,
    [0; 1; 2]%nat = optionList dc ++ optionList gh ++ optionList ini /\
    (gh = None <-> Project.repoIds fullProject = []).
Proof.
  split; [reflexivity |].
  destruct (createPluginGraphs_order loaders graphEnv (cached fullProject)
              githubDetector emptyWorld _ _ eq_refl)
    as (_ & dc & gh & ini & Hgraphs & _ & Hgh & _).
  exists dc, gh, ini. split; [exact Hgraphs | exact Hgh].
Defined.

Lemma contractPluginGraphs_merge_throws_witness :
  contractPluginGraphs loaders (pluginGraphs fullProject) overlapping =
    (overlapping, throw (JsError "graphs overlap")).
Proof.
  apply (contractPluginGraphs_merge_throws loaders (pluginGraphs fullProject)
           overlapping overlapping (JsError "graphs overlap")).
  reflexivity.
Defined.

Lemma default_project_pipeline_witness :
  exists q : Project.Project,
    Project.createProject (ProjectShapes.onlyId "sourcecred") = returns q /\
    declarations loaders q = [] /\
    updateMirror loaders noToken q emptyWorld =
      (emptyWorld, returns (plainCached noToken q)).
Proof.
  destruct (default_project_pipeline loaders "sourcecred" noToken graphEnv
              githubDetector emptyWorld)
    as (q & Hcreate & Hdeclarations & Hmirror & _).
  - discriminate.
  - exists q. split; [exact Hcreate |].
    split; [exact Hdeclarations | exact Hmirror].
Defined.

Lemma contractPluginGraphs_identities_witness :
  contractPluginGraphs loaders (pluginGraphs fullProject) twoGraphs =
    IdentityLoader.contractIdentities (identity loaders) 2%nat
      {| IdentityLoader.identities := ["decentralion"];
         IdentityLoader.discourseServerUrl :=
           obj "https://discourse.example" |}
      {| started := [];
         heap := [["github/repo"]; ["discourse/topic"];
                  ["github/repo"; "discourse/topic"]] |}.
Proof.
  apply (contractPluginGraphs_identities loaders (pluginGraphs fullProject)
           twoGraphs).
  - discriminate.
  - reflexivity.
Defined.

Lemma createReferenceDetector_missing_token_witness :
  createReferenceDetector loaders noTokenGraphEnv (cached fullProject)
    emptyWorld =
    (emptyWorld,
     throw (JsError "Tried to load GitHub, but no GitHub token set")).
Proof.
  apply (createReferenceDetector_missing_token loaders noTokenGraphEnv
           (cached fullProject) emptyWorld).
  - discriminate.
  - reflexivity.
Defined.

Lemma createReferenceDetector_returns_witness :
  exists w' detector,
    createReferenceDetector loaders graphEnv (cached fullProject)
      emptyWorld = (w', returns detector).
Proof.
  apply (createReferenceDetector_returns loaders graphEnv
           (cached fullProject) emptyWorld).
  - right; discriminate.
  - intros repos token c w0. eexists; eexists; reflexivity.
  - intros server c w0. eexists; eexists; reflexivity.
Defined.

End PluginLoadersExtras.

(** ** The initiatives loader *)
Module InitiativesLoaderProperties.
Import Async References PluginLoaders InitiativesDirectory.
Import InitiativesLoaderImpl PluginLoadersProperties.
Local Open Scope string_scope.
Local Open Scope list_scope.

Section WithImports.
Context {E : Externals} {I : Imports}.

(** X14. [loadDirectory] returns only after [reporter.start] returned,
    the wrapped load was fulfilled and [reporter.finish] returned, in
    that order, and what it returns is the directory the wrapped load was
    fulfilled with. *)
Theorem loadDirectory_returns (dir : InitiativesDirectory)
  (reporter : TaskReporter) (w w' : World)
  (loaded : LoadedInitiativesDirectory) :
  loadDirectory dir reporter w = (w', returns loaded) ->
  exists w1 w2 : World,
    reporter_start reporter "initiatives" w = (w1, returns tt) /\
    _loadDirectory dir w1 = (w2, returns loaded) /\
    reporter_finish reporter "initiatives" w2 = (w', returns tt).
Proof.
  unfold loadDirectory. intros Hrun.
  apply bind_returns in Hrun as ([] & w1 & Hstart & Hrun).
  apply bind_returns in Hrun as (loading & w2 & Hcall & Hrun).
  apply bind_returns in Hrun as (loadedDir & w3 & Hawait & Hrun).
  apply bind_returns in Hrun as ([] & w4 & Hfinish & Hrun).
  injection Hrun as <- <-.
  unfold call in Hcall.
  destruct (_loadDirectory dir w1) as [w5 p5] eqn:Hload.
  injection Hcall as <- <-. injection Hawait as <- ->.
  eexists; eexists. split; [exact Hstart |].
  split; [exact Hload | exact Hfinish].
Qed.

(** X15. When the wrapped load is rejected, [loadDirectory] is rejected
    with the same exception and [reporter.finish] is not called: the
    world is as the load left it. *)
Theorem loadDirectory_rejected (dir : InitiativesDirectory)
  (reporter : TaskReporter) (w w1 w2 : World) (e : Exception) :
  reporter_start reporter "initiatives" w = (w1, returns tt) ->
  _loadDirectory dir w1 = (w2, throw e) ->
  loadDirectory dir reporter w = (w2, throw e).
Proof.
  intros Hstart Hload. unfold loadDirectory. step_async.
  rewrite Hstart, Hload. reflexivity.
Qed.

(** X16. [createGraph] returns the object made of the graph the wrapped
    construction returned and of the weights of the plugin's own
    declaration; when the wrapped construction throws, it throws the same
    and the weights are not computed. *)
Theorem createGraph_outcomes (repo : InitiativeRepository)
  (refs : ReferenceDetector) (w : World) :
  (forall w' g,
     createGraph repo refs w = (w', returns g) ->
     exists (graph : GraphT) (weights : WeightsT) (w1 : World),
       _createGraph repo refs w = (w1, returns graph) /\
       weightsForDeclaration declaration w1 = (w', returns weights) /\
       g = weighted graph weights) /\
  (forall w1 e,
     _createGraph repo refs w = (w1, throw e) ->
     createGraph repo refs w = (w1, throw e)).
Proof.
  split.
  - intros w' g Hrun. unfold createGraph in Hrun.
    apply bind_returns in Hrun as (graph & w1 & Hgraph & Hrun).
    apply bind_returns in Hrun as (weights & w2 & Hweights & Hrun).
    injection Hrun as <- <-.
    exists graph, weights, w1. repeat split; assumption.
  - intros w1 e Hthrow. unfold createGraph. step_async.
    rewrite Hthrow. reflexivity.
Qed.

(** X17. With this loader as the initiatives loader, a rejected directory
    load makes [updateMirror] fail with the load's exception, after
    [reporter.start] and without [reporter.finish]. *)
Theorem updateMirror_default_loader_rejected
  (loaders : PluginLoaders) (env : MirrorEnv.t) (p : Project.Project)
  (w w3 w4 : World) (options : Project.Initiatives) (dir : string)
  (e : Exception) :
  PluginLoaders.initiatives loaders = loader ->
  truthy_initiatives (Project.initiatives p) = Some options ->
  truthy_directory (MirrorEnv.initiativesDirectory env) = Some dir ->
  Project.repoIds p = [] \/ MirrorEnv.githubToken env <> None ->
  reporter_start (MirrorEnv.reporter env) "initiatives"
    (afterGithubMirror loaders env p (afterDiscourseMirror loaders env p w)) =
    (w3, returns tt) ->
  _loadDirectory
    {| localPath := dir; remoteUrl := Project.remoteUrl options |} w3 =
    (w4, throw e) ->
  updateMirror loaders env p w = (w4, throw e).
Proof.
  unfold updateMirror, afterGithubMirror, afterDiscourseMirror.
  intros -> -> -> Hcheck. simpl. unfold loadDirectory. step_async.
  destruct (Project.discourseServer p) as [|server]; simpl;
    destruct (Project.repoIds p) as [|r rs]; simpl;
    destruct (MirrorEnv.githubToken env) as [token|]; simpl;
    try (destruct Hcheck as [Hc | Hc]; [discriminate Hc | contradiction]);
    repeat match goal with
    | |- context [DiscourseLoader.updateMirror ?a ?b ?c ?d ?e] =>
        destruct (DiscourseLoader.updateMirror a b c d e) as [? ?]; simpl
    | |- context [GithubLoader.updateMirror ?a ?b ?c ?d ?e ?f] =>
        destruct (GithubLoader.updateMirror a b c d e f) as [? ?]; simpl
    end;
    intros Hstart Hload; rewrite Hstart, Hload; reflexivity.
Qed.

End WithImports.

(** *** Runs with the concrete imports *)
Import Fixture FixtureImports.

Lemma loadDirectory_returns_witness :
  exists w1 w2 : FixtureWorld,
    reporter_start reporter "initiatives" emptyWorld = (w1, returns tt) /\
    _loadDirectory initiativesDir w1 = (w2, returns loaded) /\
    reporter_finish reporter "initiatives" w2 =
      (start "finish initiatives"
         (start "_loadDirectory" (start "start initiatives" emptyWorld)),
       returns tt).
Proof.
  apply (loadDirectory_returns initiativesDir reporter emptyWorld).
  reflexivity.
Defined.

Lemma loadDirectory_rejected_witness :
  loadDirectory missingDir reporter emptyWorld =
    (start "_loadDirectory" (start "start initiatives" emptyWorld),
     throw (JsError "no such directory")).
Proof.
  apply (loadDirectory_rejected missingDir reporter emptyWorld
           (start "start initiatives" emptyWorld)).
  - reflexivity.
  - reflexivity.
Defined.

Lemma createGraph_outcomes_witness :
  exists (graph : list string) (weights : list (string * nat))
         (w1 : FixtureWorld),
    _createGraph repository initiativeDetector emptyWorld =
      (w1, returns graph) /\
    weightsForDeclaration declaration w1 =
      (start "_createGraph" emptyWorld, returns weights) /\
    1%nat = weighted graph weights.
Proof.
  exact (proj1 (createGraph_outcomes repository initiativeDetector
                  emptyWorld)
           (start "_createGraph" emptyWorld) 1%nat eq_refl).
Defined.

Lemma updateMirror_default_loader_rejected_witness :
  updateMirror realLoaders missingDirectory noForum emptyWorld =
    (start "_loadDirectory"
       (start "start initiatives" (start "github.updateMirror" emptyWorld)),
     throw (JsError "no such directory")).
Proof.
  eapply (updateMirror_default_loader_rejected realLoaders missingDirectory
            noForum emptyWorld).
  - reflexivity.
  - reflexivity.
  - reflexivity.
  - right; discriminate.
  - reflexivity.
  - reflexivity.
Defined.

End InitiativesLoaderProperties.

(** ** The data directory *)
Module DataDirectoryProperties.
Import Async DataDirectory PluginLoadersProperties.
Local Open Scope string_scope.
Local Open Scope list_scope.

Section WithImports.
Context {E : Externals} {I : Imports}.

(** X18. When the project directory cannot be created, [storeProject] is
    rejected with that exception and no writer is called. *)
Theorem storeProject_mkdirp_rejected (root : string)
  (project : Project.Project) (extras : ProjectStorageExtras)
  (w w1 : World) (e : Exception) :
  fs_mkdirp (directoryForProjectId (Project.id project) root) w =
    (w1, throw e) ->
  storeProject (constructor root) project extras w = (w1, throw e).
Proof.
  intros Hmkdirp. unfold storeProject. step_async.
  rewrite Hmkdirp. reflexivity.
Qed.

(** X19. With no optional artifact given, [storeProject] creates the
    project directory and calls the project writer on [project.json] in
    it, and nothing else: its outcome is the outcome of that call. *)
Theorem storeProject_without_extras (root : string)
  (project : Project.Project) (w w1 : World) :
  fs_mkdirp (directoryForProjectId (Project.id project) root) w =
    (w1, returns tt) ->
  storeProject (constructor root) project
    {| weightedGraph := undefined;
       cred := undefined;
       pluginDeclarations := undefined |} w =
  compatWriter _ _ Project.projectToJSON "Project"
    (path_join (directoryForProjectId (Project.id project) root)
               "project.json")
    project w1.
Proof.
  intros Hmkdirp. unfold storeProject, whenGiven. step_async.
  rewrite Hmkdirp. simpl.
  destruct (compatWriter _ _ Project.projectToJSON _ _ _ _)
    as [w2 [e|[]]]; reflexivity.
Qed.

(** X20. A plugin-declaration list that is given is written even when it
    is empty: once the project directory exists and the project writer
    and the writers of the other artifacts that are given (weighted
    graph, cred) have returned, the declarations writer is called on
    [pluginDeclarations.json] with the list as it is, and its outcome is
    the outcome of [storeProject]. *)
Theorem storeProject_declarations_given (root : string)
  (project : Project.Project) (extras : ProjectStorageExtras)
  (plugins : list PluginDeclaration) (w w1 w2 w3 w4 : World) :
  pluginDeclarations extras = present plugins ->
  fs_mkdirp (directoryForProjectId (Project.id project) root) w =
    (w1, returns tt) ->
  compatWriter _ _ Project.projectToJSON "Project"
    (path_join (directoryForProjectId (Project.id project) root)
               "project.json")
    project w1 = (w2, returns tt) ->
  match weightedGraph extras with
  | undefined => w3 = w2
  | present graph =>
      compatWriter _ _ WeightedGraph_toJSON "WeightedGraph"
        (path_join (directoryForProjectId (Project.id project) root)
                   "weightedGraph.json")
        graph w2 = (w3, returns tt)
  end ->
  match cred extras with
  | undefined => w4 = w3
  | present scores =>
      compatWriter _ _ TimelineCred_toJSON "TimelineCred"
        (path_join (directoryForProjectId (Project.id project) root)
                   "cred.json")
        scores w3 = (w4, returns tt)
  end ->
  storeProject (constructor root) project extras w =
  compatWriter _ _ pluginsToJSON "PluginDeclarations"
    (path_join (directoryForProjectId (Project.id project) root)
               "pluginDeclarations.json")
    plugins w4.
Proof.
  intros Hplugins Hmkdirp Hproject Hgraph Hcred.
  unfold storeProject, whenGiven. step_async.
  rewrite Hmkdirp. simpl. rewrite Hproject. simpl. rewrite Hplugins.
  destruct (weightedGraph extras) as [|graph];
    [subst w3 | rewrite Hgraph; simpl];
    (destruct (cred extras) as [|scores];
     [subst w4 | rewrite Hcred; simpl]);
    destruct (compatWriter _ _ pluginsToJSON _ _ _ _) as [w5 [e|[]]];
    reflexivity.
Qed.

(** X21. [database] opens the file [<id>.db] in the [cache] directory
    under the root once that directory exists; when the directory cannot
    be created it is rejected and no database is opened. *)
Theorem database_outcomes (root id : string) (w w1 : World) :
  (forall e,
     fs_mkdirp (path_join root "cache") w = (w1, throw e) ->
     database (constructor root) id w = (w1, throw e)) /\
  (fs_mkdirp (path_join root "cache") w = (w1, returns tt) ->
   database (constructor root) id w =
     newDatabase (path_join (path_join root "cache") (id ++ ".db")) w1).
Proof.
  split.
  - intros e Hmkdirp. unfold database. step_async.
    rewrite Hmkdirp. reflexivity.
  - intros Hmkdirp. unfold database. step_async.
    rewrite Hmkdirp. reflexivity.
Qed.

End WithImports.

(** *** Runs with the concrete imports *)
Import Fixture FixtureImports.

Lemma storeProject_mkdirp_rejected_witness :
  storeProject (constructor "/readonly") fullProject
    {| weightedGraph := present 0%nat;
       cred := undefined;
       pluginDeclarations := present [] |} emptyWorld =
    (start "mkdirp /readonly/projects/sourcecred" emptyWorld,
     throw (JsError "read-only file system")).
Proof.
  exact (storeProject_mkdirp_rejected "/readonly" fullProject _
           emptyWorld _ _ eq_refl).
Defined.

Lemma storeProject_without_extras_witness :
  storeProject (constructor "/data") fullProject
    {| weightedGraph := undefined;
       cred := undefined;
       pluginDeclarations := undefined |} emptyWorld =
    (start "write /data/projects/sourcecred/project.json"
       (start "mkdirp /data/projects/sourcecred" emptyWorld),
     returns tt).
Proof.
  exact (storeProject_without_extras "/data" fullProject emptyWorld
           (start "mkdirp /data/projects/sourcecred" emptyWorld) eq_refl).
Defined.

Lemma storeProject_declarations_given_witness :
  storeProject (constructor "/data") identitiesOnly
    {| weightedGraph := present 0%nat;
       cred := undefined;
       pluginDeclarations := present [] |} emptyWorld =
    (start "write /data/projects/sourcecred/pluginDeclarations.json"
       (start "write /data/projects/sourcecred/weightedGraph.json"
          (start "write /data/projects/sourcecred/project.json"
             (start "mkdirp /data/projects/sourcecred" emptyWorld))),
     returns tt).
Proof.
  exact (storeProject_declarations_given "/data" identitiesOnly
           {| weightedGraph := present 0%nat;
              cred := undefined;
              pluginDeclarations := present [] |}
           [] emptyWorld
           (start "mkdirp /data/projects/sourcecred" emptyWorld)
           (start "write /data/projects/sourcecred/project.json"
              (start "mkdirp /data/projects/sourcecred" emptyWorld))
           (start "write /data/projects/sourcecred/weightedGraph.json"
              (start "write /data/projects/sourcecred/project.json"
                 (start "mkdirp /data/projects/sourcecred" emptyWorld)))
           (start "write /data/projects/sourcecred/weightedGraph.json"
              (start "write /data/projects/sourcecred/project.json"
                 (start "mkdirp /data/projects/sourcecred" emptyWorld)))
           eq_refl eq_refl eq_refl eq_refl eq_refl).
Defined.

Lemma database_outcomes_witness :
  database (constructor "/readonly") "github" emptyWorld =
    (start "mkdirp /readonly/cache" emptyWorld,
     throw (JsError "read-only file system")) /\
  database (constructor "/data") "github" emptyWorld =
    (start "open /data/cache/github.db"
       (start "mkdirp /data/cache" emptyWorld),
     returns "/data/cache/github.db").
Proof.
  split.
  - exact (proj1 (database_outcomes "/readonly" "github" emptyWorld
                    (start "mkdirp /readonly/cache" emptyWorld))
             (JsError "read-only file system") eq_refl).
  - exact (proj2 (database_outcomes "/data" "github" emptyWorld
                    (start "mkdirp /data/cache" emptyWorld)) eq_refl).
Defined.

End DataDirectoryProperties.

(** ** The distribution normaliser: further laws *)
Module DistributionToCredExtras.
Import NodeAddress DistributionToCred DistributionToCredProperties.
Local Open Scope Q_scope.

(** X22. With no scoring address at all, every interval gets the zero
    vector over [nodeOrder]. *)
Theorem distributionToCred_no_scoring_addresses
  (ds : list TimelineDistribution) (nodeOrder : list NodeAddressT) :
  intervalCredScores (distributionToCred ds nodeOrder []) =
    map (fun _ => repeat 0 (length nodeOrder)) ds.
Proof.
  simpl. apply map_ext. intros d. unfold intervalCred, scoringMass.
  assert (Hnone : scoringNodeIndices nodeOrder [] = []).
  { unfold scoringNodeIndices.
    rewrite (filter_ext_in _ (fun _ => false)).
    - induction (seq 0 (length nodeOrder)) as [|j rest IH];
        [reflexivity | exact IH].
    - intros j _. destruct (nth_error nodeOrder j); reflexivity. }
  rewrite Hnone. simpl.
  rewrite map_constant, length_seq. reflexivity.
Qed.

(** X23. The scoring addresses matter only through which nodes of
    [nodeOrder] they match: two lists of prefixes that match the same
    nodes give the same result. *)
Theorem distributionToCred_same_scoring_nodes
  (ds : list TimelineDistribution)
  (nodeOrder scoring scoring' : list NodeAddressT) :
  (forall address : NodeAddressT,
     In address nodeOrder ->
     isScoring scoring address = isScoring scoring' address) ->
  distributionToCred ds nodeOrder scoring =
    distributionToCred ds nodeOrder scoring'.
Proof.
  intros Hsame.
  assert (Hindices :
    scoringNodeIndices nodeOrder scoring =
    scoringNodeIndices nodeOrder scoring').
  { unfold scoringNodeIndices. apply filter_ext_in. intros j _.
    destruct (nth_error nodeOrder j) as [address|] eqn:Hnth;
      [| reflexivity].
    apply Hsame. apply (nth_error_In _ _ Hnth). }
  unfold distributionToCred. f_equal. apply map_ext. intros d.
  unfold intervalCred, scoringMass. rewrite Hindices. reflexivity.
Qed.

Lemma nth_nonnegative (xs : list Q) (j : nat) :
  (forall x, In x xs -> 0 <= x) -> 0 <= nth j xs 0.
Proof.
  intros Hall. destruct (Nat.lt_ge_cases j (length xs)) as [Hlt | Hge].
  - apply Hall. apply nth_In. exact Hlt.
  - rewrite nth_overflow by exact Hge. apply Qle_refl.
Qed.

Lemma sum_nonnegative (xs : list Q) :
  (forall x, In x xs -> 0 <= x) -> 0 <= sum xs.
Proof.
  induction xs as [|x rest IH]; intros Hall; simpl.
  - apply Qle_refl.
  - replace 0 with (0 + 0) by reflexivity. apply Qplus_le_compat.
    + apply Hall. left; reflexivity.
    + apply IH. intros y Hy. apply Hall. right; exact Hy.
Qed.

(** X24. Cred is never negative: in an interval whose weight and
    probabilities are non-negative, every node's cred is non-negative. *)
Theorem distributionToCred_nonnegative
  (ds : list TimelineDistribution) (nodeOrder scoring : list NodeAddressT)
  (i : nat) (d : TimelineDistribution) :
  nth_error ds i = Some d ->
  0 <= intervalWeight d ->
  (forall x, In x (distribution d) -> 0 <= x) ->
  forall j : nat, 0 <= credAt (distributionToCred ds nodeOrder scoring) i j.
Proof.
  intros Hd Hweight Hprob j. unfold credAt.
  rewrite (nth_intervalCredScores _ _ _ _ _ Hd).
  apply nth_nonnegative. intros x Hx. unfold intervalCred in Hx.
  apply in_map_iff in Hx as (k & <- & _).
  destruct (Qeq_bool _ 0) eqn:Hzero; [apply Qle_refl |].
  assert (Hmass : 0 <= scoringMass nodeOrder scoring (distribution d)).
  { unfold scoringMass. apply sum_nonnegative. intros y Hy.
    apply in_map_iff in Hy as (m & <- & _).
    apply nth_nonnegative. exact Hprob. }
  apply Qmult_le_0_compat.
  - apply Qmult_le_0_compat; [exact Hweight |].
    apply nth_nonnegative. exact Hprob.
  - apply Qinv_le_0_compat. exact Hmass.
Qed.


Local Open Scope string_scope.

Lemma distributionToCred_same_scoring_nodes_witness :
  distributionToCred test_ds test_nodeOrder [na ["foo"]; na ["bar"]] =
    distributionToCred test_ds test_nodeOrder
      [na ["bar"]; na ["foo"]; na ["bar"]].
Proof.
  apply (distributionToCred_same_scoring_nodes test_ds test_nodeOrder
           [na ["foo"]; na ["bar"]] [na ["bar"]; na ["foo"]; na ["bar"]]).
  intros address [<- | [<- | []]]; reflexivity.
Defined.

Lemma distributionToCred_nonnegative_witness :
  0 <= credAt (distributionToCred test_ds test_nodeOrder [na ["bar"]]) 0 1.
Proof.
  apply (distributionToCred_nonnegative test_ds test_nodeOrder [na ["bar"]]
           0
           {| interval := {| startTimeMs := 0; endTimeMs := 10 |};
              intervalWeight := 2;
              distribution := [1 # 2; 1 # 2] |}).
  - reflexivity.
  - unfold Qle; simpl; lia.
  - intros x [<- | [<- | []]]; unfold Qle; simpl; lia.
Defined.

End DistributionToCredExtras.

(** ** The distribution normaliser in binary64 *)
Module DistributionToCred64Properties.
Import Floats NodeAddress.
Local Open Scope string_scope.






(** The scenarios of the test file, in binary64: the expected vectors
    are met exactly. *)
Example test_scenarios_binary64 :
  DistributionToCred64.intervalCredScores
    (DistributionToCred64.distributionToCred
       DistributionToCred64.test_ds DistributionToCred.test_nodeOrder
       [empty]) = [[1; 1]; [9; 1]]%float /\
  DistributionToCred64.intervalCredScores
    (DistributionToCred64.distributionToCred
       DistributionToCred64.test_ds DistributionToCred.test_nodeOrder
       [DistributionToCred.na ["bar"]]) = [[2; 2]; [90; 10]]%float /\
  DistributionToCred64.intervalCredScores
    (DistributionToCred64.distributionToCred
       DistributionToCred64.test_ds DistributionToCred.test_nodeOrder
       []) = [[0; 0]; [0; 0]]%float.
Proof. repeat split; vm_compute; reflexivity. Qed.

End DistributionToCred64Properties.
